(** * MealBot: grocery aggregation and nutrition validation

    A shallow embedding of [mealbot.models], [mealbot.grocery.aggregator],
    [mealbot.planner.nutrition], [mealbot.planner.seasonal] and the
    rendering of quantities of [mealbot.grocery.formatter], followed by the
    properties of the aggregation and validation pipeline.

    Conventions of the embedding.
    - A Python [str] is a [string] whose characters are the code points
      0..255 (Latin-1, one character per code point), which covers the
      French vocabulary of the tables below; [str.lower], [str.strip],
      [in] and [<] are written out on that range.
    - Python [int] is [Z].  A Python [float] is a binary64 number, the
      primitive [float] with the IEEE 754 operations of the machine (each
      result rounded to the nearest float, ties to even; infinities,
      signed zeros and NaN included); the fields annotated [float] hold
      floats.  True division of two [int]s and the conversion of an [int]
      to a [float] round once and raise [OverflowError] out of range;
      [sum] adds from the left, starting from [0], as the interpreter does
      up to version 3.11.  The number a finite float stands for is a
      rational [Q].
    - A [dict] used only through [get] is a [gmap]; the accumulator dict,
      whose insertion order feeds a stable sort, is an association list in
      insertion order; a [set] is a [gset].
    - A call that can raise returns an [outcome]. *)

From Stdlib Require Import Floats.PrimFloat Floats.SpecFloat Floats.FloatOps.
From Stdlib Require Import Floats.FloatAxioms.
From Stdlib Require Import Strings.Ascii Strings.String.
From Stdlib Require Import DecimalString DecimalPos DecimalN DecimalZ.
From Stdlib Require Import QArith Qabs Qpower Sorting.Sorted Sorting.Permutation.
From stdpp Require Import base option list gmap strings sorting.

#[local] Set Warnings "-inexact-float".

Local Open Scope Z_scope.
Local Open Scope string_scope.
Local Open Scope list_scope.

(** ** Python strings on the Latin-1 range *)

Module PyStr.

(** [c.lower()] for one code point below 256: A-Z, and the accented
    capitals 192..222 except the multiplication sign 215. *)
Definition lower_char (c : ascii) : ascii :=
  let n := N_of_ascii c in
  if ((65 <=? n) && (n <=? 90) || (192 <=? n) && (n <=? 214)
      || (216 <=? n) && (n <=? 222))%N
  then ascii_of_N (n + 32) else c.

Fixpoint lower (s : string) : string :=
  match s with
  | EmptyString => EmptyString
  | String c s' => String (lower_char c) (lower s')
  end.

(** [c.isspace()] for one code point below 256. *)
Definition isspace (c : ascii) : bool :=
  let n := N_of_ascii c in
  ((9 <=? n) && (n <=? 13) || (28 <=? n) && (n <=? 32)
   || (n =? 133) || (n =? 160))%N.

Fixpoint lstrip (s : string) : string :=
  match s with
  | EmptyString => EmptyString
  | String c s' => if isspace c then lstrip s' else s
  end.

Fixpoint rstrip (s : string) : string :=
  match s with
  | EmptyString => EmptyString
  | String c s' =>
      match rstrip s' with
      | EmptyString => if isspace c then EmptyString else String c EmptyString
      | r => String c r
      end
  end.

(** [s.strip()] with no argument. *)
Definition strip (s : string) : string := rstrip (lstrip s).

(** [sub in s]: [sub] occurs in [s] as a contiguous run. *)
Fixpoint contains (sub s : string) : bool :=
  String.prefix sub s
  || match s with
     | EmptyString => false
     | String _ s' => contains sub s'
     end.

(** [a < b] on [str]: lexicographic on code points. *)
Definition lt (a b : string) : bool := String.ltb a b.

(** [(a1, b1) < (a2, b2)] on pairs of [str]: the first differing
    component decides. *)
Definition pair_lt (x y : string * string) : bool :=
  if String.eqb x.1 y.1 then lt x.2 y.2 else lt x.1 y.1.

End PyStr.

(** ** Exceptions *)

Inductive exn : Set := ZeroDivisionError | OverflowError | ValueError.

Inductive outcome (A : Type) : Type :=
| Returned (a : A)
| Raised (e : exn).
Arguments Returned {A} a.
Arguments Raised {A} e.

#[global] Instance outcome_ret : MRet outcome := fun A a => Returned a.

#[global] Instance outcome_bind : MBind outcome := fun A B k m =>
  match m with
  | Returned a => k a
  | Raised e => Raised e
  end.

(** ** Python floats *)

Module PyFloat.

(** The float nearest to [a / b] for [0 <= a] and [0 < b], the even one of
    two equally near, with the given sign; an infinity when the quotient
    lies beyond the largest float.  The quotient is taken with at least 55
    significant bits and one more bit that records a non-zero remainder,
    then rounded once. *)
Definition nearest_ratio (negative : bool) (a b : Z) : spec_float :=
  let k := Z.max 0 (Z.log2 b + 55 - Z.log2 a) in
  let n := a * 2 ^ k in
  match 2 * (n / b) + (if (n mod b =? 0)%Z then 0 else 1) with
  | Zpos m => binary_round prec emax negative m (- k - 1)
  | _ => S754_zero negative
  end.

(** [float(n)] for an [int], also the conversion of the [int] operand of
    [float * int]: the nearest float, [OverflowError] beyond the largest. *)
Definition of_int (n : Z) : outcome float :=
  match binary_normalize prec emax n 0 false with
  | S754_infinity _ => Raised OverflowError
  | x => Returned (SF2Prim x)
  end.

(** The number a finite float stands for; zero for an infinity or NaN. *)
Definition to_Q (x : float) : Q :=
  match Prim2SF x with
  | S754_finite s m e =>
      (inject_Z (if s then Z.neg m else Z.pos m) * Qpower 2 e)%Q
  | _ => 0%Q
  end.

(** [int(x)] for a [float]: its integer part, rounded toward zero. *)
Definition to_int (x : float) : outcome Z :=
  match Prim2SF x with
  | S754_nan => Raised ValueError
  | S754_infinity _ => Raised OverflowError
  | _ => Returned (Z.quot (Qnum (to_Q x)) (Z.pos (Qden (to_Q x))))
  end.

End PyFloat.

(** [a / b] on two [int]s: true division.  A zero divisor raises
    [ZeroDivisionError]; otherwise the result is the float nearest to the
    quotient, negative when exactly one operand is, and [OverflowError] is
    raised when that float would be an infinity. *)
Definition truediv (a b : Z) : outcome float :=
  if decide (b = 0) then Raised ZeroDivisionError
  else
    match PyFloat.nearest_ratio (xorb (a <? 0)%Z (b <? 0)%Z) (Z.abs a) (Z.abs b) with
    | S754_infinity _ => Raised OverflowError
    | q => Returned (SF2Prim q)
    end.

(** ** mealbot.models *)

Module Macros.
Record t : Type := mk {
  calories : Z;
  protein_g : float;
  carbs_g : float;
  fat_g : float
}.
End Macros.

Module Ingredient.
Record t : Type := mk {
  name : string;
  quantity : float;
  unit : string;
  category : string
}.
End Ingredient.

Module Recipe.
Record t : Type := mk {
  id : string;
  name : string;
  servings : Z;
  prep_time_min : Z;
  ingredients : list Ingredient.t;
  instructions : list string;
  tags : list string;
  macros : option Macros.t;
  season : list string;
  storage_days : Z;
  reheatable : bool
}.
End Recipe.

Module MealSlot.
Record t : Type := mk {
  day : string;
  meal_type : string;
  recipe_id : string;
  portions : Z
}.
End MealSlot.

Module MealPlan.
Record t : Type := mk {
  week : string;
  slots : list MealSlot.t;
  prep_order : list string;
  total_prep_time_min : Z
}.
End MealPlan.

(** ** Insertion-ordered dictionaries and [list.sort] *)

Module PyDict.
Section ordered_dict.
Context {K V : Type} `{EqDecision K}.

(** A [dict]: its items in insertion order, each key at most once. *)
Definition t : Type := list (K * V).

(** [k in d] *)
Fixpoint mem (k : K) (d : t) : bool :=
  match d with
  | [] => false
  | (k', _) :: d' => if decide (k' = k) then true else mem k d'
  end.

(** [d.get(k)] *)
Fixpoint get (k : K) (d : t) : option V :=
  match d with
  | [] => None
  | (k', v) :: d' => if decide (k' = k) then Some v else get k d'
  end.

(** [d[k] = f(d[k])] for a key already present: the item keeps its place. *)
Fixpoint update (f : V -> V) (k : K) (d : t) : t :=
  match d with
  | [] => []
  | (k', v) :: d' =>
      if decide (k' = k) then (k', f v) :: d' else (k', v) :: update f k d'
  end.

(** [d[k] = v] for a key not yet present: the item goes last. *)
Definition add (k : K) (v : V) (d : t) : t := d ++ [(k, v)].

Definition keys (d : t) : list K := map fst d.
Definition values (d : t) : list V := map snd d.

End ordered_dict.
Arguments t : clear implicits.
End PyDict.

Module PyList.
Section sorting.
Context {A K : Type} (key : A -> K) (lt : K -> K -> bool).

(** One step of the stable insertion: [x], which came after every element
    of the sorted prefix [l], goes before the first element whose key is
    strictly greater. *)
Fixpoint insert (x : A) (l : list A) : list A :=
  match l with
  | [] => [x]
  | y :: l' => if lt (key x) (key y) then x :: l else y :: insert x l'
  end.

(** [l.sort(key=key)]: stable, comparing keys with [<] only. *)
Definition sort (l : list A) : list A :=
  fold_left (fun acc x => insert x acc) l [].

End sorting.
End PyList.

(** ** mealbot.grocery.aggregator *)

Inductive IngredientCategory : Set :=
| LEGUMES | FRUITS | PROTEINES | EPICERIE | FRAIS | SURGELES | BOISSONS | AUTRE.

#[global] Instance IngredientCategory_eq_dec : EqDecision IngredientCategory.
Proof. solve_decision. Defined.

(** The [value] of each enum member. *)
Definition value (c : IngredientCategory) : string :=
  match c with
  | LEGUMES => "legumes"
  | FRUITS => "fruits"
  | PROTEINES => "proteines"
  | EPICERIE => "epicerie"
  | FRAIS => "frais"
  | SURGELES => "surgeles"
  | BOISSONS => "boissons"
  | AUTRE => "autre"
  end.

Definition PANTRY_STAPLES : gset string :=
  list_to_set [
    "sel"; "poivre"; "huile d'olive"; "huile"; "vinaigre"; "sucre";
    "farine"; "eau"; "poivre noir"; "sel fin"; "gros sel" ].

(** The e-acute of the accented keys is code point 233. *)
Definition e_acute : ascii := "233"%char.

Definition CATEGORY_MAPPING : gmap string IngredientCategory :=
  list_to_map [
    ("legumes", LEGUMES);
    ("l" +:+ String e_acute "gumes", LEGUMES);
    ("fruits", FRUITS);
    ("proteines", PROTEINES);
    ("prot" +:+ String e_acute "ines", PROTEINES);
    ("viande", PROTEINES);
    ("poisson", PROTEINES);
    ("epicerie", EPICERIE);
    (String e_acute "picerie", EPICERIE);
    ("base", EPICERIE);
    ("frais", FRAIS);
    ("surgeles", SURGELES);
    ("surgel" +:+ String e_acute "s", SURGELES);
    ("boissons", BOISSONS) ].

Module GroceryListItem.
Record t : Type := mk {
  ingredient_name : string;
  total_quantity : float;
  unit : string;
  category : IngredientCategory;
  coop_product_name : option string;
  coop_product_url : option string;
  coop_price : option float
}.
End GroceryListItem.

Module GroceryList.
Record t : Type := mk { items : list GroceryListItem.t }.

Definition total_items (self : t) : nat := length (items self).

(** One turn of the loop of [by_category]. *)
Definition by_category_step
    (result : PyDict.t IngredientCategory (list GroceryListItem.t))
    (item : GroceryListItem.t)
    : PyDict.t IngredientCategory (list GroceryListItem.t) :=
  let c := GroceryListItem.category item in
  let result := if PyDict.mem c result then result else PyDict.add c [] result in
  PyDict.update (fun bucket => bucket ++ [item]) c result.

Definition by_category (self : t)
    : PyDict.t IngredientCategory (list GroceryListItem.t) :=
  fold_left by_category_step (items self) [].
End GroceryList.

Definition _normalize_ingredient_name (name : string) : string :=
  PyStr.strip (PyStr.lower name).

(** The loop of [_is_pantry_staple] over the staples still to visit. *)
Fixpoint any_staple_matches (normalized : string) (staples : list string) : bool :=
  match staples with
  | [] => false
  | staple :: rest =>
      if PyStr.contains staple normalized || PyStr.contains normalized staple
      then true
      else any_staple_matches normalized rest
  end.

Definition _is_pantry_staple (name : string) : bool :=
  let normalized := _normalize_ingredient_name name in
  any_staple_matches normalized (elements PANTRY_STAPLES).

Definition _get_category (category_str : string) : IngredientCategory :=
  let normalized := PyStr.strip (PyStr.lower category_str) in
  default AUTRE (CATEGORY_MAPPING !! normalized).

(** The inner dict stored under each normalized name: the keys ["name"],
    ["quantity"], ["unit"] and ["category"]. *)
Module Entry.
Record t : Type := mk {
  name : string;
  quantity : float;
  unit : string;
  category : IngredientCategory
}.

(** [data["quantity"] += q] *)
Definition add_quantity (q : float) (data : t) : t :=
  mk (name data) (quantity data + q)%float (unit data) (category data).
End Entry.

(** The body of the loop over [recipe.ingredients]. *)
Definition ingredient_step (exclude_pantry : bool) (portion_multiplier : float)
    (aggregated : PyDict.t string Entry.t) (ingredient : Ingredient.t)
    : PyDict.t string Entry.t :=
  let normalized_name := _normalize_ingredient_name (Ingredient.name ingredient) in
  if exclude_pantry && _is_pantry_staple (Ingredient.name ingredient)
  then aggregated
  else
    let quantity := (Ingredient.quantity ingredient * portion_multiplier)%float in
    if PyDict.mem normalized_name aggregated
    then PyDict.update (Entry.add_quantity quantity) normalized_name aggregated
    else PyDict.add normalized_name
           (Entry.mk (Ingredient.name ingredient) quantity
              (Ingredient.unit ingredient)
              (_get_category (Ingredient.category ingredient)))
           aggregated.

(** The body of the loop over [plan.slots]. *)
Definition slot_step (recipes : gmap string Recipe.t) (exclude_pantry : bool)
    (aggregated : PyDict.t string Entry.t) (slot : MealSlot.t)
    : outcome (PyDict.t string Entry.t) :=
  match recipes !! MealSlot.recipe_id slot with
  | None => Returned aggregated
  | Some recipe =>
      portion_multiplier ← truediv (MealSlot.portions slot) (Recipe.servings recipe);
      Returned (fold_left (ingredient_step exclude_pantry portion_multiplier)
                  (Recipe.ingredients recipe) aggregated)
  end.

Fixpoint slots_loop (recipes : gmap string Recipe.t) (exclude_pantry : bool)
    (slots : list MealSlot.t) (aggregated : PyDict.t string Entry.t)
    : outcome (PyDict.t string Entry.t) :=
  match slots with
  | [] => Returned aggregated
  | slot :: rest =>
      aggregated ← slot_step recipes exclude_pantry aggregated slot;
      slots_loop recipes exclude_pantry rest aggregated
  end.

Definition to_item (data : Entry.t) : GroceryListItem.t :=
  GroceryListItem.mk (Entry.name data) (Entry.quantity data) (Entry.unit data)
    (Entry.category data) None None None.

(** The key of the final sort: [(x.category.value, x.ingredient_name.lower())]. *)
Definition sort_key (x : GroceryListItem.t) : string * string :=
  (value (GroceryListItem.category x),
   PyStr.lower (GroceryListItem.ingredient_name x)).

Definition aggregate_ingredients (plan : MealPlan.t)
    (recipes : gmap string Recipe.t) (exclude_pantry : bool)
    : outcome GroceryList.t :=
  aggregated ← slots_loop recipes exclude_pantry (MealPlan.slots plan) [];
  let items := map to_item (PyDict.values aggregated) in
  Returned (GroceryList.mk (PyList.sort sort_key PyStr.pair_lt items)).

(** ** mealbot.planner.nutrition *)

Definition DAILY_PROTEIN_MIN_G : float := 60.
Definition DAILY_CARBS_MAX_G : float := 150.
Definition HIGH_CARB_THRESHOLD_G : float := 50.

(** [sum(xs)] for floats: starts from [0] and adds from the left, each
    addition rounded.  The sum of no float is the [int] [0], which compares
    as the float zero and is written as it. *)
Definition py_sum (xs : list float) : float := fold_left PrimFloat.add xs 0%float.

(** [max(a, b)]: the first argument unless the second is strictly greater. *)
Definition py_max (a b : float) : float := if (a <? b)%float then b else a.

Module ValidationResult.
Record t : Type := mk {
  is_valid : bool;
  total : float;
  target : float;
  deficit : float;
  excess : float
}.
End ValidationResult.

Module NutritionValidationResult.
Record t : Type := mk {
  protein_valid : bool;
  carbs_valid : bool;
  protein_total : float;
  carbs_total : float;
  high_carb_recipes : option (list string)
}.

Definition is_valid (self : t) : bool := protein_valid self && carbs_valid self.
End NutritionValidationResult.

Definition validate_daily_protein (daily_macros : list Macros.t) : ValidationResult.t :=
  let total_protein := py_sum (map Macros.protein_g daily_macros) in
  let is_valid := (DAILY_PROTEIN_MIN_G <=? total_protein)%float in
  let deficit := py_max 0 (DAILY_PROTEIN_MIN_G - total_protein)%float in
  ValidationResult.mk is_valid total_protein DAILY_PROTEIN_MIN_G deficit 0.

Definition validate_daily_carbs (daily_macros : list Macros.t) : ValidationResult.t :=
  let total_carbs := py_sum (map Macros.carbs_g daily_macros) in
  let is_valid := (total_carbs <=? DAILY_CARBS_MAX_G)%float in
  let excess := py_max 0 (total_carbs - DAILY_CARBS_MAX_G)%float in
  ValidationResult.mk is_valid total_carbs DAILY_CARBS_MAX_G 0 excess.

Definition is_high_carb_recipe (recipe : Recipe.t) : bool :=
  match Recipe.macros recipe with
  | None => false
  | Some macros => (HIGH_CARB_THRESHOLD_G <? Macros.carbs_g macros)%float
  end.

(** The recipe's macros multiplied by [slot.portions]: the calories as
    [int]s, the three others as a [float] times the [int] converted to a
    [float]. *)
Definition scale_macros (m : Macros.t) (portions : Z) : outcome Macros.t :=
  p ← PyFloat.of_int portions;
  Returned (Macros.mk (Macros.calories m * portions)
              (Macros.protein_g m * p)%float
              (Macros.carbs_g m * p)%float
              (Macros.fat_g m * p)%float).

(** The body of the loop over [day_slots]; the state is the pair
    [(daily_macros, high_carb_recipes)]. *)
Definition nutrition_step (recipes : gmap string Recipe.t)
    (st : list Macros.t * list string) (slot : MealSlot.t)
    : outcome (list Macros.t * list string) :=
  let '(daily_macros, high_carb_recipes) := st in
  match recipes !! MealSlot.recipe_id slot with
  | Some recipe =>
      match Recipe.macros recipe with
      | Some m =>
          macros ← scale_macros m (MealSlot.portions slot);
          let daily_macros := daily_macros ++ [macros] in
          if is_high_carb_recipe recipe
          then Returned (daily_macros, high_carb_recipes ++ [Recipe.id recipe])
          else Returned (daily_macros, high_carb_recipes)
      | None => Returned st
      end
  | None => Returned st
  end.

Fixpoint nutrition_loop (recipes : gmap string Recipe.t)
    (slots : list MealSlot.t) (st : list Macros.t * list string)
    : outcome (list Macros.t * list string) :=
  match slots with
  | [] => Returned st
  | slot :: rest =>
      st ← nutrition_step recipes st slot;
      nutrition_loop recipes rest st
  end.

(** [plan.slots] filtered to [day]. *)
Definition day_slots_of (plan : MealPlan.t) (day : string) : list MealSlot.t :=
  filter (fun slot => MealSlot.day slot = day) (MealPlan.slots plan).

(** The two lists the loop of [validate_meal_plan_nutrition] has built
    when it ends. *)
Definition collect_day (plan : MealPlan.t) (recipes : gmap string Recipe.t)
    (day : string) : outcome (list Macros.t * list string) :=
  nutrition_loop recipes (day_slots_of plan day) ([], []).

Definition validate_meal_plan_nutrition (plan : MealPlan.t)
    (recipes : gmap string Recipe.t) (day : string)
    : outcome NutritionValidationResult.t :=
  st ← collect_day plan recipes day;
  let '(daily_macros, high_carb_recipes) := st in
  let protein_result := validate_daily_protein daily_macros in
  let carbs_result := validate_daily_carbs daily_macros in
  Returned
    (NutritionValidationResult.mk
       (ValidationResult.is_valid protein_result)
       (ValidationResult.is_valid carbs_result)
       (ValidationResult.total protein_result)
       (ValidationResult.total carbs_result)
       (match high_carb_recipes with [] => None | _ => Some high_carb_recipes end)).

(** ** Python integers as text *)

Module PyInt.

(** [str(n)] for an [int]: its decimal digits, after a minus sign when
    negative. *)
Definition str (n : Z) : string := NilZero.string_of_int (Z.to_int n).

End PyInt.

(** ** mealbot.planner.seasonal *)

Module Seasonal.

Inductive SeasonalCategory : Set := LEGUMES | FRUITS | HERBES.

#[global] Instance SeasonalCategory_eq_dec : EqDecision SeasonalCategory.
Proof. solve_decision. Defined.

(** The exceptions of this module: the [ValueError] raised on a month out
    of range, with its message, and the [KeyError] of a failed subscript. *)
Inductive error : Type :=
| ValueError (message : string)
| KeyError (key : Z).

Inductive result (A : Type) : Type :=
| Ok (a : A)
| Raise (e : error).
Arguments Ok {A} a.
Arguments Raise {A} e.

(** The calendar, month by month; each month maps the categories, in the
    order written, to the names in season. *)
Definition _SEASONAL_CALENDAR
    : gmap Z (PyDict.t SeasonalCategory (list string)) :=
  list_to_map [
    (1,
     [
       (LEGUMES,
        [
          "carotte"; "panais"; "celeri-rave"; "poireau"; "chou";
          "chou-rouge"; "chou-frise"; "betterave"; "navet"; "rutabaga";
          "topinambour"; "salsifis"; "endive"; "mache" ]);
       (FRUITS,
        [
          "pomme"; "poire" ]);
       (HERBES,
        [
          "persil"; "romarin"; "thym"; "sauge" ]) ]);
    (2,
     [
       (LEGUMES,
        [
          "carotte"; "panais"; "celeri-rave"; "poireau"; "chou";
          "chou-rouge"; "chou-frise"; "betterave"; "navet"; "rutabaga";
          "topinambour"; "salsifis"; "endive"; "mache"; "epinard" ]);
       (FRUITS,
        [
          "pomme"; "poire" ]);
       (HERBES,
        [
          "persil"; "romarin"; "thym"; "sauge" ]) ]);
    (3,
     [
       (LEGUMES,
        [
          "carotte"; "panais"; "celeri-rave"; "poireau"; "chou"; "epinard";
          "mache"; "radis"; "cresson" ]);
       (FRUITS,
        [
          "pomme"; "poire"; "rhubarbe" ]);
       (HERBES,
        [
          "persil"; "ciboulette"; "ail-des-ours" ]) ]);
    (4,
     [
       (LEGUMES,
        [
          "asperge"; "radis"; "epinard"; "cresson"; "laitue";
          "oignon-nouveau"; "carotte-nouvelle" ]);
       (FRUITS,
        [
          "rhubarbe" ]);
       (HERBES,
        [
          "persil"; "ciboulette"; "ail-des-ours"; "cerfeuil" ]) ]);
    (5,
     [
       (LEGUMES,
        [
          "asperge"; "radis"; "epinard"; "laitue"; "petit-pois"; "feve";
          "oignon-nouveau"; "carotte-nouvelle"; "chou-rave" ]);
       (FRUITS,
        [
          "rhubarbe"; "fraise" ]);
       (HERBES,
        [
          "persil"; "ciboulette"; "basilic"; "menthe"; "cerfeuil"; "estragon" ]) ]);
    (6,
     [
       (LEGUMES,
        [
          "asperge"; "petit-pois"; "feve"; "haricot-vert"; "courgette";
          "concombre"; "laitue"; "radis"; "chou-rave"; "fenouil"; "bette" ]);
       (FRUITS,
        [
          "fraise"; "cerise"; "framboise"; "groseille" ]);
       (HERBES,
        [
          "persil"; "ciboulette"; "basilic"; "menthe"; "aneth"; "coriandre" ]) ]);
    (7,
     [
       (LEGUMES,
        [
          "tomate"; "courgette"; "aubergine"; "poivron"; "concombre";
          "haricot-vert"; "petit-pois"; "fenouil"; "bette"; "mais"; "laitue";
          "celeri-branche" ]);
       (FRUITS,
        [
          "fraise"; "framboise"; "myrtille"; "groseille"; "cerise";
          "abricot"; "peche"; "prune" ]);
       (HERBES,
        [
          "basilic"; "persil"; "ciboulette"; "menthe"; "aneth"; "coriandre";
          "origan"; "marjolaine" ]) ]);
    (8,
     [
       (LEGUMES,
        [
          "tomate"; "courgette"; "aubergine"; "poivron"; "concombre";
          "haricot-vert"; "fenouil"; "bette"; "mais"; "oignon"; "ail" ]);
       (FRUITS,
        [
          "framboise"; "myrtille"; "mure"; "prune"; "peche"; "poire";
          "pomme"; "melon"; "pasteque" ]);
       (HERBES,
        [
          "basilic"; "persil"; "ciboulette"; "menthe"; "aneth"; "coriandre";
          "origan"; "thym" ]) ]);
    (9,
     [
       (LEGUMES,
        [
          "tomate"; "courgette"; "aubergine"; "poivron"; "courge";
          "potimarron"; "butternut"; "haricot-vert"; "fenouil"; "bette";
          "chou"; "poireau"; "carotte" ]);
       (FRUITS,
        [
          "pomme"; "poire"; "prune"; "raisin"; "figue"; "mure" ]);
       (HERBES,
        [
          "persil"; "ciboulette"; "thym"; "romarin"; "sauge" ]) ]);
    (10,
     [
       (LEGUMES,
        [
          "courge"; "potimarron"; "butternut"; "chou"; "chou-rouge";
          "chou-frise"; "poireau"; "carotte"; "panais"; "celeri-rave";
          "betterave"; "navet"; "fenouil"; "brocoli" ]);
       (FRUITS,
        [
          "pomme"; "poire"; "raisin"; "coing"; "chataigne"; "noix" ]);
       (HERBES,
        [
          "persil"; "thym"; "romarin"; "sauge" ]) ]);
    (11,
     [
       (LEGUMES,
        [
          "courge"; "potimarron"; "butternut"; "chou"; "chou-rouge";
          "chou-frise"; "chou-de-bruxelles"; "poireau"; "carotte"; "panais";
          "celeri-rave"; "betterave"; "navet"; "topinambour"; "salsifis";
          "endive"; "mache" ]);
       (FRUITS,
        [
          "pomme"; "poire"; "coing"; "chataigne"; "noix" ]);
       (HERBES,
        [
          "persil"; "thym"; "romarin"; "sauge" ]) ]);
    (12,
     [
       (LEGUMES,
        [
          "chou"; "chou-rouge"; "chou-frise"; "chou-de-bruxelles"; "poireau";
          "carotte"; "panais"; "celeri-rave"; "betterave"; "navet";
          "rutabaga"; "topinambour"; "salsifis"; "endive"; "mache" ]);
       (FRUITS,
        [
          "pomme"; "poire" ]);
       (HERBES,
        [
          "persil"; "thym"; "romarin"; "sauge" ]) ]) ].

Definition get_seasonal_ingredients (month : Z)
    : result (PyDict.t SeasonalCategory (list string)) :=
  if negb ((1 <=? month)%Z && (month <=? 12)%Z)
  then Raise (ValueError ("Month must be between 1 and 12, got " +:+ PyInt.str month))
  else match _SEASONAL_CALENDAR !! month with
       | Some seasonal => Ok seasonal
       | None => Raise (KeyError month)
       end.

(** [x in l] for a list of [str]. *)
Definition list_contains (x : string) (l : list string) : bool :=
  bool_decide (x ∈ l).

(** The loop of [is_ingredient_in_season] over the lists still to visit. *)
Fixpoint any_list_contains (ingredient_lower : string)
    (lists : list (list string)) : bool :=
  match lists with
  | [] => false
  | category_items :: rest =>
      if list_contains ingredient_lower category_items then true
      else any_list_contains ingredient_lower rest
  end.

Definition is_ingredient_in_season (ingredient : string) (month : Z)
    : result bool :=
  match get_seasonal_ingredients month with
  | Raise e => Raise e
  | Ok seasonal =>
      let ingredient_lower := PyStr.lower ingredient in
      Ok (any_list_contains ingredient_lower (PyDict.values seasonal))
  end.

End Seasonal.

(** ** mealbot.grocery.formatter: the rendering of quantities *)

Module Formatter.




End Formatter.

(** ** Concrete inputs used by the examples below *)

Module Sample.
Definition ingredient (n : string) (q : float) (u c : string) : Ingredient.t :=
  Ingredient.mk n q u c.
Definition recipe (i : string) (s : Z) (ings : list Ingredient.t)
    (m : option Macros.t) : Recipe.t :=
  Recipe.mk i i s 10 ings [] [] m [] 3 true.
Definition slot (d r : string) (p : Z) : MealSlot.t := MealSlot.mk d "lunch" r p.
Definition plan (sl : list MealSlot.t) : MealPlan.t := MealPlan.mk "2026-W06" sl [] 0.

(** A pasta dish above the high-carb threshold, eaten twice on Monday. *)
Definition pasta : Recipe.t :=
  recipe "pasta" 2 [] (Some (Macros.mk 500 20 60 10)).
Definition pasta_table : gmap string Recipe.t := {[ "pasta" := pasta ]}.
Definition pasta_week : MealPlan.t :=
  plan [slot "lundi" "pasta" 2; slot "lundi" "pasta" 1; slot "mardi" "pasta" 1].

(** A soup whose carrots are listed twice under two spellings, with a
    staple and a blank name among its ingredients; the week also has a
    slot whose recipe is not in the table. *)
Definition soup : Recipe.t :=
  recipe "soup" 4
    [ ingredient "Carotte" 200 "g" "legumes";
      ingredient "carotte " 100 "g" "legumes";
      ingredient "Riz" 300 "g" "epicerie";
      ingredient "Sel" 5 "g" "base";
      ingredient "  " 1 "g" "autre" ]
    None.
Definition soup_table : gmap string Recipe.t := {[ "soup" := soup ]}.
Definition soup_week : MealPlan.t :=
  plan [slot "lundi" "soup" 2; slot "mardi" "soup" 2].
Definition soup_week_with_gap : MealPlan.t :=
  plan [slot "lundi" "soup" 2; slot "mardi" "soup" 2; slot "jeudi" "missing" 1].

(** A recipe whose [servings] is zero, and one whose [servings] is negative. *)
Definition broth0 : Recipe.t := recipe "broth" 0 [ingredient "Navet" 100 "g" "legumes"] None.
Definition broth_neg : Recipe.t := recipe "broth" (-2) [ingredient "Navet" 100 "g" "legumes"] None.
Definition broth_slot : MealSlot.t := slot "lundi" "broth" 1.
Definition broth_week : MealPlan.t := plan [broth_slot].
Definition broth_table0 : gmap string Recipe.t := {[ "broth" := broth0 ]}.
Definition broth_table_neg : gmap string Recipe.t := {[ "broth" := broth_neg ]}.

(** A dal of 100 g of lentils for three, eaten on three days, one portion
    each time. *)
Definition lentils : Ingredient.t := ingredient "Lentilles" 100 "g" "epicerie".
Definition dal : Recipe.t := recipe "dal" 3 [lentils] None.
Definition dal_table : gmap string Recipe.t := {[ "dal" := dal ]}.
Definition dal_week : MealPlan.t :=
  plan [slot "lundi" "dal" 1; slot "mardi" "dal" 1; slot "jeudi" "dal" 1].

(** A week that asks for [10 ** 400] portions of the dal, after a slot for
    the broth. *)
Definition feast_table : gmap string Recipe.t :=
  {[ "dal" := dal; "broth" := broth0 ]}.
Definition feast_week : MealPlan.t :=
  plan [slot "lundi" "dal" (10 ^ 400); broth_slot].

(** Three dishes whose carbohydrates are 73.9 g, 18.9 g and 57.2 g, and a
    Tuesday that serves them in two orders. *)
Definition dish (i : string) (carbs : float) : Recipe.t :=
  recipe i 1 [] (Some (Macros.mk 400 25 carbs 10)).
Definition dish_table : gmap string Recipe.t :=
  {[ "gratin" := dish "gratin" 73.9;
     "salade" := dish "salade" 18.9;
     "risotto" := dish "risotto" 57.2 ]}.
Definition tuesday : MealPlan.t :=
  plan [slot "mardi" "gratin" 1; slot "mardi" "salade" 1; slot "mardi" "risotto" 1].
Definition tuesday_reordered : MealPlan.t :=
  plan [slot "mardi" "gratin" 1; slot "mardi" "risotto" 1; slot "mardi" "salade" 1].

(** A Monday that asks for [10 ** 400] portions of pasta. *)
Definition pasta_feast : MealPlan.t :=
  plan [slot "lundi" "pasta" 1; slot "lundi" "pasta" (10 ^ 400)].
End Sample.

(** ** Vocabulary of the properties *)

(** [x] added once more to [acc], [n] times over, each addition rounded. *)
Definition add_again (x : float) (n : nat) (acc : float) : float :=
  Nat.iter n (fun a => (a + x)%float) acc.

(** The floats [xs] added one after the other to [acc]. *)
Definition add_all (acc : float) (xs : list float) : float :=
  fold_left PrimFloat.add xs acc.

(** [x] is a number and is not negative. *)
Definition nonneg (x : float) : Prop := (0 <=? x)%float = true.

(** What one slot of the day contributes to [high_carb_recipes]. *)
Definition high_carb_entry (recipes : gmap string Recipe.t) (slot : MealSlot.t)
    : list string :=
  match recipes !! MealSlot.recipe_id slot with
  | Some recipe => if is_high_carb_recipe recipe then [Recipe.id recipe] else []
  | None => []
  end.


(** [sub] occurs in [s]: some text before it and some text after it make up [s]. *)
Definition is_substring (sub s : string) : Prop :=
  exists pre post, s = pre +:+ sub +:+ post.

(** Under a sort by [key] with the test [lt], [x] may stand before [y]:
    the key of [y] is not below the key of [x]. *)
Definition not_after {A K : Type} (key : A -> K) (lt : K -> K -> bool)
    (x y : A) : Prop :=
  lt (key y) (key x) = false.

(** The items of [l] whose category is [c], in the order of [l]. *)
Definition of_category (c : IngredientCategory) (l : list GroceryListItem.t)
    : list GroceryListItem.t :=
  filter (fun it => GroceryListItem.category it = c) l.

(** The bucket [by_category] holds for [c] once it has gone through [l]:
    an empty bucket is never stored. *)
Definition bucket_of (c : IngredientCategory) (l : list GroceryListItem.t)
    : option (list GroceryListItem.t) :=
  match of_category c l with
  | [] => None
  | b => Some b
  end.

(** The dict [d] is what [by_category] has built from the items [l]. *)
Definition buckets_of (d : PyDict.t IngredientCategory (list GroceryListItem.t))
    (l : list GroceryListItem.t) : Prop :=
  NoDup (PyDict.keys d) /\ forall c, PyDict.get c d = bucket_of c l.

(** The pantry test only looks at the normalized name. *)
Definition staple_of_normalized (normalized : string) : bool :=
  any_staple_matches normalized (elements PANTRY_STAPLES).

(** The accumulator is well formed: keys are distinct, each entry is stored
    under the normalized form of the name it records, and, when staples are
    excluded, no recorded name is a staple. *)
Definition wf_acc (exclude : bool) (d : PyDict.t string Entry.t) : Prop :=
  NoDup (PyDict.keys d)
  /\ forall k e, (k, e) ∈ d ->
       k = _normalize_ingredient_name (Entry.name e)
       /\ (exclude = true -> _is_pantry_staple (Entry.name e) = false).

(** The normalized name of an emitted item. *)
Definition item_key (it : GroceryListItem.t) : string :=
  _normalize_ingredient_name (GroceryListItem.ingredient_name it).

(** Whether the slot resolves to a recipe whose [servings] is zero. *)
Definition zero_servings_slot (recipes : gmap string Recipe.t) (slot : MealSlot.t)
    : Prop :=
  exists r, recipes !! MealSlot.recipe_id slot = Some r /\ Recipe.servings r = 0.

(** The slot resolves to a recipe, and dividing its portions by the
    servings of that recipe raises [e]. *)
Definition division_raises (recipes : gmap string Recipe.t) (slot : MealSlot.t)
    (e : exn) : Prop :=
  exists r, recipes !! MealSlot.recipe_id slot = Some r
    /\ truediv (MealSlot.portions slot) (Recipe.servings r) = Raised e.

(** The slot resolves to no recipe, or to one by whose servings its
    portions divide. *)
Definition division_returns (recipes : gmap string Recipe.t) (slot : MealSlot.t)
    : Prop :=
  forall r, recipes !! MealSlot.recipe_id slot = Some r ->
    exists pm, truediv (MealSlot.portions slot) (Recipe.servings r) = Returned pm.

(** The slot resolves to a recipe with macros, and its portions are too
    large an [int] for a [float]. *)
Definition portions_overflow (recipes : gmap string Recipe.t) (slot : MealSlot.t)
    : Prop :=
  (exists r m, recipes !! MealSlot.recipe_id slot = Some r
     /\ Recipe.macros r = Some m)
  /\ PyFloat.of_int (MealSlot.portions slot) = Raised OverflowError.


(** The values of a list of outcomes when all have returned, else the
    first exception met. *)
Fixpoint all_returned {A : Type} (l : list (outcome A)) : outcome (list A) :=
  match l with
  | [] => Returned []
  | o :: l' => a ← o; r ← all_returned l'; Returned (a :: r)
  end.

(** The place of each category when the [value] strings are compared:
    autre, boissons, epicerie, frais, fruits, legumes, proteines, surgeles. *)
Definition value_rank (c : IngredientCategory) : nat :=
  match c with
  | AUTRE => 0
  | BOISSONS => 1
  | EPICERIE => 2
  | FRAIS => 3
  | FRUITS => 4
  | LEGUMES => 5
  | PROTEINES => 6
  | SURGELES => 7
  end.

(** [x] may stand before [y] in the returned list: its category comes
    first among the [value] strings, or the categories agree and its
    lower-cased name is not above that of [y]. *)
Definition item_le (x y : GroceryListItem.t) : Prop :=
  (value_rank (GroceryListItem.category x) < value_rank (GroceryListItem.category y))%nat
  \/ (GroceryListItem.category x = GroceryListItem.category y
      /\ String.leb (PyStr.lower (GroceryListItem.ingredient_name x))
                    (PyStr.lower (GroceryListItem.ingredient_name y)) = true).

(** The order of categories the presentation uses, the [category_order] of
    the formatter: produce, fruits, proteins, fresh, grocery, beverages,
    frozen, other. *)
Definition presentation_rank (c : IngredientCategory) : nat :=
  match c with
  | LEGUMES => 0
  | FRUITS => 1
  | PROTEINES => 2
  | FRAIS => 3
  | EPICERIE => 4
  | BOISSONS => 5
  | SURGELES => 6
  | AUTRE => 7
  end.

(** [x] may stand before [y] under the presentation order of categories,
    names breaking ties as above. *)
Definition presentation_le (x y : GroceryListItem.t) : Prop :=
  (presentation_rank (GroceryListItem.category x)
   < presentation_rank (GroceryListItem.category y))%nat
  \/ (GroceryListItem.category x = GroceryListItem.category y
      /\ String.leb (PyStr.lower (GroceryListItem.ingredient_name x))
                    (PyStr.lower (GroceryListItem.ingredient_name y)) = true).

(** The accumulator after the same recipe has been poured in once per slot. *)
Definition pour (exclude : bool) (pm : float) (ingredients : list Ingredient.t)
    (slots : list MealSlot.t) (d : PyDict.t string Entry.t)
    : PyDict.t string Entry.t :=
  fold_left (fun acc _ => fold_left (ingredient_step exclude pm) ingredients acc)
    slots d.

(** What one slot adds to the day: nothing when its recipe is unknown or
    carries no macros, otherwise the scaling of the recipe's macros by its
    portions, which returns the scaled macros or raises. *)
Definition slot_macros (recipes : gmap string Recipe.t) (slot : MealSlot.t)
    : option (outcome Macros.t) :=
  match recipes !! MealSlot.recipe_id slot with
  | Some recipe =>
      match Recipe.macros recipe with
      | Some m => Some (scale_macros m (MealSlot.portions slot))
      | None => None
      end
  | None => None
  end.


(** The plan with its slots replaced. *)
Definition with_slots (plan : MealPlan.t) (slots : list MealSlot.t) : MealPlan.t :=
  MealPlan.mk (MealPlan.week plan) slots (MealPlan.prep_order plan)
    (MealPlan.total_prep_time_min plan).

(** Every character of [s] is whitespace. *)
Fixpoint all_space (s : string) : bool :=
  match s with
  | EmptyString => true
  | String c s' => PyStr.isspace c && all_space s'
  end.

(** The first character, if any, is no whitespace. *)
Definition no_lead (s : string) : Prop :=
  match s with
  | EmptyString => True
  | String c _ => PyStr.isspace c = false
  end.

(** The recipe with its ingredients replaced. *)
Definition with_ingredients (r : Recipe.t) (ingredients : list Ingredient.t)
    : Recipe.t :=
  Recipe.mk (Recipe.id r) (Recipe.name r) (Recipe.servings r)
    (Recipe.prep_time_min r) ingredients (Recipe.instructions r) (Recipe.tags r)
    (Recipe.macros r) (Recipe.season r) (Recipe.storage_days r)
    (Recipe.reheatable r).

(** The recipe without its pantry staples. *)
Definition without_staples (r : Recipe.t) : Recipe.t :=
  with_ingredients r
    (filter (fun i => _is_pantry_staple (Ingredient.name i) = false)
       (Recipe.ingredients r)).

(** One use of an ingredient: the ingredient and the portion multiplier of
    the slot that uses it. *)
Definition use_key (u : Ingredient.t * float) : string :=
  _normalize_ingredient_name (Ingredient.name u.1).

Definition use_quantity (u : Ingredient.t * float) : float :=
  (Ingredient.quantity u.1 * u.2)%float.

(** The ingredients one slot brings in, each with the slot's multiplier
    [portions / servings]: those of its recipe, less the staples when they
    are excluded; nothing when the recipe is unknown, or when the division
    raises. *)
Definition slot_uses (recipes : gmap string Recipe.t) (exclude : bool)
    (slot : MealSlot.t) : list (Ingredient.t * float) :=
  match recipes !! MealSlot.recipe_id slot with
  | Some r =>
      match truediv (MealSlot.portions slot) (Recipe.servings r) with
      | Returned pm =>
          map (fun i => (i, pm))
            (filter (fun i => exclude && _is_pantry_staple (Ingredient.name i) = false)
               (Recipe.ingredients r))
      | Raised _ => []
      end
  | None => []
  end.

(** All uses of ingredients by a plan, in the order the aggregation meets them. *)
Definition plan_uses (plan : MealPlan.t) (recipes : gmap string Recipe.t)
    (exclude : bool) : list (Ingredient.t * float) :=
  flat_map (slot_uses recipes exclude) (MealPlan.slots plan).

(** What the aggregation does with one use. *)
Definition use_step (d : PyDict.t string Entry.t) (u : Ingredient.t * float)
    : PyDict.t string Entry.t :=
  ingredient_step false u.2 d u.1.

(** The entry [e'] is what the uses [us] of its key make of the entry [e0]
    found before them: an entry already there keeps its name, unit and
    category and has their quantities added to its own, one after the
    other; otherwise the first use gives the name, the unit, the category
    and the starting quantity, to which those of the others are added. *)
Definition entry_from (e' : Entry.t) (e0 : option Entry.t)
    (us : list (Ingredient.t * float)) : Prop :=
  match e0 with
  | Some e =>
      Entry.name e' = Entry.name e
      /\ Entry.unit e' = Entry.unit e
      /\ Entry.category e' = Entry.category e
      /\ Entry.quantity e' = add_all (Entry.quantity e) (map use_quantity us)
  | None =>
      exists u rest,
        us = u :: rest
        /\ Entry.name e' = Ingredient.name u.1
        /\ Entry.unit e' = Ingredient.unit u.1
        /\ Entry.category e' = _get_category (Ingredient.category u.1)
        /\ Entry.quantity e' = add_all (use_quantity u) (map use_quantity rest)
  end.

(** The lower-cased name of [x] is not above that of [y]. *)
Definition name_le (x y : GroceryListItem.t) : Prop :=
  String.leb (PyStr.lower (GroceryListItem.ingredient_name x))
             (PyStr.lower (GroceryListItem.ingredient_name y)) = true.

(** * Facts about floats *)

Section float_facts.

(** The division of [int]s and the conversion of an [int] at work: the
    quotient is rounded once, also when the operands are beyond the
    floats; the sign of a zero quotient is that of the divisor. *)
Example truediv_samples :
  truediv 1 3 = Returned (1 / 3)%float
  /\ truediv 2 4 = Returned 0.5%float
  /\ truediv 100 3 = Returned 33.333333333333336%float
  /\ truediv 1 (-2) = Returned (-0.5)%float
  /\ truediv 0 (-5) = Returned (-0)%float
  /\ truediv (2 ^ 53 + 1) 1 = Returned 9007199254740992%float
  /\ truediv (10 ^ 400) (10 ^ 399) = Returned 10%float
  /\ truediv 1 (10 ^ 400) = Returned 0%float
  /\ truediv (10 ^ 400) 1 = Raised OverflowError
  /\ truediv 7 0 = Raised ZeroDivisionError.
Proof. by vm_compute. Qed.

Example of_int_samples :
  PyFloat.of_int 3 = Returned 3%float
  /\ PyFloat.of_int (-2) = Returned (-2)%float
  /\ PyFloat.of_int (2 ^ 53 + 1) = Returned 9007199254740992%float
  /\ PyFloat.of_int (2 ^ 53 + 3) = Returned 9007199254740996%float
  /\ PyFloat.of_int (2 ^ 1024 - 2 ^ 970 - 1) = Returned 0x1.fffffffffffffp+1023%float
  /\ PyFloat.of_int (2 ^ 1024 - 2 ^ 970) = Raised OverflowError
  /\ PyFloat.of_int (10 ^ 400) = Raised OverflowError.
Proof. by vm_compute. Qed.

(** A float strictly above another is at least that other. *)
Lemma ltb_leb (x y : float) : (x <? y)%float = true -> (x <=? y)%float = true.
Proof.
  rewrite FloatAxioms.ltb_spec, FloatAxioms.leb_spec. unfold SFltb, SFleb.
  by destruct (SFcompare (Prim2SF x) (Prim2SF y)) as [[]|].
Qed.

Lemma digits2_pos_bounds (m : positive) :
  2 ^ (Z.pos (digits2_pos m) - 1) <= Z.pos m < 2 ^ Z.pos (digits2_pos m).
Proof.
  induction m as [m IH|m IH|]; cbn [digits2_pos].
  - rewrite Pos2Z.inj_succ.
    replace (Z.succ (Z.pos (digits2_pos m)) - 1) with (Z.succ (Z.pos (digits2_pos m) - 1)) by lia.
    rewrite !Z.pow_succ_r by lia. lia.
  - rewrite Pos2Z.inj_succ.
    replace (Z.succ (Z.pos (digits2_pos m)) - 1) with (Z.succ (Z.pos (digits2_pos m) - 1)) by lia.
    rewrite !Z.pow_succ_r by lia. lia.
  - simpl. lia.
Qed.

Lemma iter_xO_pow (d m : positive) :
  Z.pos (Pos.iter xO m d) = Z.pos m * 2 ^ Z.pos d.
Proof.
  induction d as [|d IH] using Pos.peano_ind.
  - simpl. lia.
  - rewrite Pos.iter_succ, Pos2Z.inj_succ, Z.pow_succ_r by lia.
    rewrite Pos2Z.inj_xO, IH. lia.
Qed.

Lemma shl_align_value (m : positive) (e e' : Z) :
  e' <= e -> Z.pos (shl_align m e e').1 = Z.pos m * 2 ^ (e - e').
Proof.
  intros H. unfold shl_align. destruct (e' - e) as [|d|d] eqn:E.
  - replace (e - e') with 0 by lia. simpl. lia.
  - lia.
  - simpl. rewrite iter_xO_pow. f_equal. f_equal. lia.
Qed.

(** The mantissa of a float in canonical form has at most 53 bits, and
    exactly 53 above the least exponent. *)
Lemma canonical_digits (m : positive) (e : Z) :
  valid_binary (S754_finite false m e) = true ->
  -1074 <= e
  /\ Z.pos m < 2 ^ 53
  /\ (-1074 < e -> 2 ^ 52 <= Z.pos m).
Proof.
  unfold SpecFloat.valid_binary, bounded, canonical_mantissa, fexp, SpecFloat.emin.
  intros [Hc _]%andb_true_iff. apply Z.eqb_eq in Hc.
  change prec with 53 in Hc. change emax with 1024 in Hc.
  pose proof (digits2_pos_bounds m) as [Hlo Hhi].
  assert (Hd : Z.pos (digits2_pos m) <= 53) by lia.
  split_and!.
  - lia.
  - eapply Z.lt_le_trans; [exact Hhi|]. apply Z.pow_le_mono_r; lia.
  - intros He. assert (Z.pos (digits2_pos m) = 53) as Hd53 by lia.
    rewrite Hd53 in Hlo. exact Hlo.
Qed.

Lemma Prim2SF_canonical (x : float) s m e :
  Prim2SF x = S754_finite s m e ->
  -1074 <= e /\ Z.pos m < 2 ^ 53 /\ (-1074 < e -> 2 ^ 52 <= Z.pos m).
Proof.
  intros H. pose proof (Prim2SF_valid x) as Hv. rewrite H in Hv.
  apply canonical_digits. exact Hv.
Qed.

Lemma binary_normalize_nonpos (M e : Z) :
  M <= 0 ->
  SFltb (S754_zero false) (binary_normalize prec emax M e false) = false.
Proof.
  intros HM. destruct M as [|p|p]; [reflexivity|lia|].
  unfold binary_normalize, binary_round, binary_round_aux.
  destruct (shl_align _ _ _) as [mz ez].
  destruct (shr_fexp _ _ _ _ _) as [mrs' e'].
  destruct (shr_fexp _ _ _ _ _) as [mrs'' e''].
  destruct (shr_m mrs''); [reflexivity| |reflexivity].
  by destruct (Z.leb _ _).
Qed.

Lemma pow2_ge_2 (d : Z) : 0 < d -> 2 <= 2 ^ d.
Proof.
  intros H. change 2 with (2 ^ 1) at 1. apply Z.pow_le_mono_r; lia.
Qed.

(** Two finite floats in canonical form, the first not above the second:
    their mantissas, brought to the lesser exponent and signed, differ by
    at most zero. *)
Lemma aligned_difference_nonpos sx mx ex sy my ey c :
  valid_binary (S754_finite false mx ex) = true ->
  valid_binary (S754_finite false my ey) = true ->
  SFcompare (S754_finite sx mx ex) (S754_finite sy my ey) = Some c ->
  c <> Gt ->
  cond_Zopp sx (Z.pos (shl_align mx ex (Z.min ex ey)).1)
  - cond_Zopp sy (Z.pos (shl_align my ey (Z.min ex ey)).1) <= 0.
Proof.
  intros HX HY Hc Hgt.
  destruct (canonical_digits mx ex HX) as (Hex & Hmx & Hnx).
  destruct (canonical_digits my ey HY) as (Hey & Hmy & Hny).
  rewrite !shl_align_value by lia.
  assert (Hpx : 0 < 2 ^ (ex - Z.min ex ey)) by (apply Z.pow_pos_nonneg; lia).
  assert (Hpy : 0 < 2 ^ (ey - Z.min ex ey)) by (apply Z.pow_pos_nonneg; lia).
  cbn [SFcompare] in Hc.
  change (PosDef.Pos.compare_cont Eq mx my) with (mx ?= my)%positive in Hc.
  destruct (Z.compare_spec ex ey) as [He|He|He].
  - subst ey. rewrite Z.min_id, Z.sub_diag, !Z.mul_1_r.
    destruct (Pos.compare_spec mx my) as [Hm|Hm|Hm];
      destruct sx, sy; cbn [cond_Zopp]; simpl in Hc; try lia; congruence.
  - rewrite Z.min_l in * by lia. rewrite Z.sub_diag, Z.mul_1_r.
    pose proof (pow2_ge_2 (ey - ex) ltac:(lia)) as H2.
    destruct sx, sy; cbn [cond_Zopp]; try nia; congruence.
  - rewrite Z.min_r in * by lia. rewrite Z.sub_diag, Z.mul_1_r.
    pose proof (pow2_ge_2 (ex - ey) ltac:(lia)) as H2.
    destruct sx, sy; cbn [cond_Zopp]; try nia; congruence.
Qed.

Lemma SFsub_nonpos (X Y : spec_float) :
  valid_binary X = true -> valid_binary Y = true ->
  SFleb X Y = true ->
  SFltb (S754_zero false) (SF64sub X Y) = false.
Proof.
  intros HX HY. unfold SFleb.
  destruct X as [sx|sx| |sx mx ex], Y as [sy|sy| |sy my ey];
    try (by destruct sx); try (by destruct sy); try (by destruct sx, sy); try done.
  destruct (SFcompare _ _) as [c|] eqn:Hc; [|done]. intros Hle.
  unfold SF64sub, SFsub. apply binary_normalize_nonpos.
  apply (aligned_difference_nonpos sx mx ex sy my ey c); [done|done|done|].
  by destruct c.
Qed.

Lemma shr_1_m (mrs : shr_record) :
  0 <= shr_m mrs -> shr_m (shr_1 mrs) = shr_m mrs / 2.
Proof.
  destruct mrs as [m r s]. cbn [shr_m]. intros Hm.
  destruct m as [|[p|p|]|p]; cbn [shr_1 shr_m]; try lia; try reflexivity.
  - rewrite Pos2Z.inj_xI. apply (Z.div_unique _ _ _ 1); lia.
  - rewrite Pos2Z.inj_xO. apply (Z.div_unique _ _ _ 0); lia.
Qed.

Lemma iter_shr_1_m (p : positive) (mrs : shr_record) :
  0 <= shr_m mrs ->
  shr_m (SpecFloat.iter_pos shr_1 p mrs) = shr_m mrs / 2 ^ Z.pos p.
Proof.
  revert mrs. induction p as [p IH|p IH|]; intros mrs Hm; cbn [SpecFloat.iter_pos].
  - assert (HP : 0 < 2 ^ Z.pos p) by (apply Z.pow_pos_nonneg; lia).
    assert (E : 2 ^ Z.pos p~1 = 2 * 2 ^ Z.pos p * 2 ^ Z.pos p).
    { rewrite Pos2Z.inj_xI.
      replace (2 * Z.pos p + 1) with (1 + Z.pos p + Z.pos p) by lia.
      by rewrite !Z.pow_add_r by lia. }
    assert (H1 : 0 <= shr_m (shr_1 mrs)).
    { rewrite shr_1_m by done. apply Z.div_pos; lia. }
    assert (H2 : 0 <= shr_m (SpecFloat.iter_pos shr_1 p (shr_1 mrs))).
    { rewrite IH by done. apply Z.div_pos; lia. }
    rewrite IH, IH, shr_1_m by done.
    rewrite E, !Z.div_div by lia. f_equal. lia.
  - assert (HP : 0 < 2 ^ Z.pos p) by (apply Z.pow_pos_nonneg; lia).
    assert (E : 2 ^ Z.pos p~0 = 2 ^ Z.pos p * 2 ^ Z.pos p).
    { rewrite <- Z.pow_add_r by lia. f_equal. lia. }
    assert (H2 : 0 <= shr_m (SpecFloat.iter_pos shr_1 p mrs)).
    { rewrite IH by done. apply Z.div_pos; lia. }
    rewrite IH, IH by done. rewrite E, Z.div_div by lia. reflexivity.
  - rewrite shr_1_m by done. reflexivity.
Qed.

(** Shifting a positive mantissa into the format, at or above the least
    exponent, leaves a positive mantissa and does not lower the exponent. *)
Lemma shr_fexp_positive (m : positive) (e : Z) (l : location) :
  -1074 <= e ->
  0 < shr_m (shr_fexp prec emax (Z.pos m) e l).1
  /\ -1074 <= (shr_fexp prec emax (Z.pos m) e l).2.
Proof.
  intros He. unfold shr_fexp, shr, fexp, SpecFloat.emin.
  change prec with 53. change emax with 1024. cbn [Zdigits2].
  pose proof (digits2_pos_bounds m) as [Hlo Hhi].
  set (d := Z.pos (digits2_pos m)) in *.
  assert (Hm : shr_m (shr_record_of_loc (Z.pos m) l) = Z.pos m).
  { by destruct l as [|[]]. }
  destruct (Z.max (d + e - 53) (3 - 1024 - 53) - e) as [|p|p] eqn:E; cbn [fst snd].
  - rewrite Hm. lia.
  - rewrite iter_shr_1_m by (rewrite Hm; lia). rewrite Hm.
    assert (Hp : Z.pos p = d - 53) by lia. split; [|lia].
    apply Z.div_str_pos. split; [apply Z.pow_pos_nonneg; lia|].
    rewrite Hp. eapply Z.le_trans; [|exact Hlo]. apply Z.pow_le_mono_r; lia.
  - rewrite Hm. lia.
Qed.

Lemma round_nearest_even_positive (m : Z) (l : location) :
  0 < m -> 0 < round_nearest_even m l.
Proof.
  intros Hm. destruct l as [|[]]; simpl; try lia. destruct (Z.even m); lia.
Qed.

Lemma binary_round_aux_positive (m : positive) (e : Z) :
  -1074 <= e ->
  SFltb (S754_zero false) (binary_round_aux prec emax false (Z.pos m) e loc_Exact)
  = true.
Proof.
  intros He. unfold binary_round_aux.
  pose proof (shr_fexp_positive m e loc_Exact He) as [H1 He'].
  destruct (shr_fexp prec emax (Z.pos m) e loc_Exact) as [mrs' e']. cbn [fst snd] in *.
  pose proof (round_nearest_even_positive (shr_m mrs') (loc_of_shr_record mrs') H1)
    as Hr.
  destruct (round_nearest_even (shr_m mrs') (loc_of_shr_record mrs')) as [|m1|m1];
    try lia.
  pose proof (shr_fexp_positive m1 e' loc_Exact He') as [H2 _].
  destruct (shr_fexp prec emax (Z.pos m1) e' loc_Exact) as [mrs'' e''].
  cbn [fst snd] in *.
  destruct (shr_m mrs'') as [|m2|m2]; try lia.
  by destruct (Z.leb _ _).
Qed.

Lemma binary_normalize_positive (M e : Z) :
  0 < M -> -1074 <= e ->
  SFltb (S754_zero false) (binary_normalize prec emax M e false) = true.
Proof.
  intros HM He. destruct M as [|p|p]; try lia.
  unfold binary_normalize, binary_round.
  destruct (shl_align p e _) as [mz ez] eqn:Ea.
  apply binary_round_aux_positive.
  unfold shl_align in Ea.
  assert (Hf : -1074 <= fexp prec emax (Z.pos (digits2_pos p) + e)).
  { unfold fexp, SpecFloat.emin. change prec with 53. change emax with 1024. lia. }
  destruct (_ - e) as [|d|d] eqn:Ed; injection Ea as <- <-; lia.
Qed.

(** The mirror of [aligned_difference_nonpos]: the first float above the
    second. *)
Lemma aligned_difference_pos sx mx ex sy my ey :
  valid_binary (S754_finite false mx ex) = true ->
  valid_binary (S754_finite false my ey) = true ->
  SFcompare (S754_finite sx mx ex) (S754_finite sy my ey) = Some Gt ->
  0 < cond_Zopp sx (Z.pos (shl_align mx ex (Z.min ex ey)).1)
      - cond_Zopp sy (Z.pos (shl_align my ey (Z.min ex ey)).1).
Proof.
  intros HX HY Hc.
  destruct (canonical_digits mx ex HX) as (Hex & Hmx & Hnx).
  destruct (canonical_digits my ey HY) as (Hey & Hmy & Hny).
  rewrite !shl_align_value by lia.
  assert (Hpx : 0 < 2 ^ (ex - Z.min ex ey)) by (apply Z.pow_pos_nonneg; lia).
  assert (Hpy : 0 < 2 ^ (ey - Z.min ex ey)) by (apply Z.pow_pos_nonneg; lia).
  cbn [SFcompare] in Hc.
  change (PosDef.Pos.compare_cont Eq mx my) with (mx ?= my)%positive in Hc.
  destruct (Z.compare_spec ex ey) as [He|He|He].
  - subst ey. rewrite Z.min_id, Z.sub_diag, !Z.mul_1_r.
    destruct (Pos.compare_spec mx my) as [Hm|Hm|Hm];
      destruct sx, sy; cbn [cond_Zopp]; simpl in Hc; try lia; congruence.
  - rewrite Z.min_l in * by lia. rewrite Z.sub_diag, Z.mul_1_r.
    pose proof (pow2_ge_2 (ey - ex) ltac:(lia)) as H2.
    destruct sx, sy; cbn [cond_Zopp]; try nia; congruence.
  - rewrite Z.min_r in * by lia. rewrite Z.sub_diag, Z.mul_1_r.
    pose proof (pow2_ge_2 (ex - ey) ltac:(lia)) as H2.
    destruct sx, sy; cbn [cond_Zopp]; try nia; congruence.
Qed.

Lemma SFsub_pos (X Y : spec_float) :
  valid_binary X = true -> valid_binary Y = true ->
  SFcompare X Y = Some Gt ->
  SFltb (S754_zero false) (SF64sub X Y) = true.
Proof.
  intros HX HY.
  destruct X as [sx|sx| |sx mx ex], Y as [sy|sy| |sy my ey];
    try (by destruct sx); try (by destruct sy); try (by destruct sx, sy); try done.
  intros Hc. unfold SF64sub, SFsub.
  pose proof (aligned_difference_pos sx mx ex sy my ey HX HY Hc) as HM.
  destruct (canonical_digits mx ex HX) as (Hex & _).
  destruct (canonical_digits my ey HY) as (Hey & _).
  apply binary_normalize_positive; [exact HM|lia].
Qed.

(** Two floats that are numbers compare one way or the other. *)
Lemma SFcompare_refl_Some (X : spec_float) :
  X <> S754_nan -> SFcompare X X = Some Eq.
Proof.
  destruct X as [s|s| |s m e]; intros H; try done; try (by destruct s).
  cbn [SFcompare]. rewrite Z.compare_refl.
  change (PosDef.Pos.compare_cont Eq m m) with (m ?= m)%positive.
  rewrite Pos.compare_refl. by destruct s.
Qed.

Lemma SFcompare_Some (X Y : spec_float) :
  X <> S754_nan -> Y <> S754_nan -> exists c, SFcompare X Y = Some c.
Proof.
  destruct X as [sx|sx| |sx mx ex], Y as [sy|sy| |sy my ey];
    intros HX HY; try done; by eexists.
Qed.

Lemma is_nan_Prim2SF (x : float) : is_nan x = false <-> Prim2SF x <> S754_nan.
Proof.
  unfold is_nan. rewrite FloatAxioms.eqb_spec. unfold SFeqb. split.
  - intros H E. rewrite E in H. done.
  - intros H. by rewrite (SFcompare_refl_Some _ H).
Qed.

(** When [x <= y] holds, the rounded difference [x - y] is not above
    zero. *)
Lemma sub_not_positive (x y : float) :
  (x <=? y)%float = true -> (0 <? x - y)%float = false.
Proof.
  rewrite FloatAxioms.leb_spec, FloatAxioms.ltb_spec, FloatAxioms.sub_spec. intros H.
  change (Prim2SF 0) with (S754_zero false).
  apply SFsub_nonpos; [apply Prim2SF_valid|apply Prim2SF_valid|exact H].
Qed.

(** When [x <= y] fails for two floats that are numbers, the rounded
    difference [x - y] is above zero. *)
Lemma sub_positive (x y : float) :
  is_nan x = false -> is_nan y = false ->
  (x <=? y)%float = false -> (0 <? x - y)%float = true.
Proof.
  intros Hx%is_nan_Prim2SF Hy%is_nan_Prim2SF. rewrite FloatAxioms.leb_spec, FloatAxioms.ltb_spec, FloatAxioms.sub_spec.
  intros H. change (Prim2SF 0) with (S754_zero false).
  apply SFsub_pos; [apply Prim2SF_valid|apply Prim2SF_valid|].
  destruct (SFcompare_Some _ _ Hx Hy) as [c Hc]. unfold SFleb in H.
  rewrite Hc in H. rewrite Hc. by destruct c.
Qed.

Lemma is_nan_true (x : float) : is_nan x = true -> Prim2SF x = S754_nan.
Proof.
  intros H. destruct (Prim2SF x) eqn:E; [| |done|].
  all: assert (is_nan x = false) as H' by (apply is_nan_Prim2SF; by rewrite E).
  all: congruence.
Qed.

(** Nothing is at most or above a NaN, and no difference with a NaN is
    above zero. *)
Lemma nan_leb_l (x y : float) : is_nan x = true -> (x <=? y)%float = false.
Proof.
  intros H%is_nan_true. by rewrite FloatAxioms.leb_spec, H.
Qed.

Lemma nan_leb_r (x y : float) : is_nan y = true -> (x <=? y)%float = false.
Proof.
  intros H%is_nan_true. rewrite FloatAxioms.leb_spec, H. unfold SFleb.
  by destruct (Prim2SF x).
Qed.

Lemma nan_sub_l (x y : float) : is_nan x = true -> (0 <? x - y)%float = false.
Proof.
  intros H%is_nan_true.
  by rewrite FloatAxioms.ltb_spec, FloatAxioms.sub_spec, H.
Qed.

Lemma nan_sub_r (x y : float) : is_nan y = true -> (0 <? x - y)%float = false.
Proof.
  intros H%is_nan_true.
  rewrite FloatAxioms.ltb_spec, FloatAxioms.sub_spec, H.
  unfold SF64sub, SFsub. by destruct (Prim2SF x).
Qed.

End float_facts.

(** * Properties of the nutrition validator *)

Section nutrition.

Lemma of_int_Raised (n : Z) (e : exn) :
  PyFloat.of_int n = Raised e -> e = OverflowError.
Proof.
  unfold PyFloat.of_int.
  destruct (binary_normalize prec emax n 0 false); congruence.
Qed.

Lemma scale_macros_Raised (m : Macros.t) (p : Z) (e : exn) :
  scale_macros m p = Raised e <-> PyFloat.of_int p = Raised e.
Proof.
  unfold scale_macros. destruct (PyFloat.of_int p); simpl; split; congruence.
Qed.

Lemma slot_macros_None_entry recipes (s : MealSlot.t) :
  slot_macros recipes s = None -> high_carb_entry recipes s = [].
Proof.
  unfold slot_macros, high_carb_entry, is_high_carb_recipe.
  destruct (recipes !! MealSlot.recipe_id s) as [r|]; [|done].
  by destruct (Recipe.macros r).
Qed.

Lemma nutrition_step_cases recipes dm hc (s : MealSlot.t) :
  nutrition_step recipes (dm, hc) s
  = match slot_macros recipes s with
    | None => Returned (dm, hc)
    | Some o => m ← o; Returned (dm ++ [m], hc ++ high_carb_entry recipes s)
    end.
Proof.
  unfold nutrition_step, slot_macros, high_carb_entry.
  destruct (recipes !! MealSlot.recipe_id s) as [r|]; [|done].
  destruct (Recipe.macros r) as [m|] eqn:Hm; [|done].
  destruct (scale_macros m (MealSlot.portions s)) as [m'|e]; simpl; [|done].
  destruct (is_high_carb_recipe r); by rewrite ?app_nil_r.
Qed.

(** The loop returns the macros of the slots that count, in order, with
    the ids of the high-carb ones, or raises what the first failing scaling
    raises. *)
Lemma nutrition_loop_spec recipes (slots : list MealSlot.t) dm hc :
  nutrition_loop recipes slots (dm, hc)
  = ms ← all_returned (omap (slot_macros recipes) slots);
    Returned (dm ++ ms, hc ++ flat_map (high_carb_entry recipes) slots).
Proof.
  revert dm hc. induction slots as [|s slots IH]; intros dm hc.
  - simpl. by rewrite !app_nil_r.
  - cbn [nutrition_loop omap list_omap flat_map]. rewrite nutrition_step_cases.
    destruct (slot_macros recipes s) as [[m|e]|] eqn:Hs; simpl.
    + rewrite IH. destruct (all_returned _); simpl; [|done].
      by rewrite <- !app_assoc.
    + done.
    + rewrite IH, (slot_macros_None_entry _ _ Hs). done.
Qed.

(** The result of the validation, field by field. *)
Lemma validate_meal_plan_nutrition_fields plan recipes day :
  validate_meal_plan_nutrition plan recipes day
  = dm ← all_returned (omap (slot_macros recipes) (day_slots_of plan day));
    Returned
      (NutritionValidationResult.mk
         (DAILY_PROTEIN_MIN_G <=? py_sum (map Macros.protein_g dm))%float
         (py_sum (map Macros.carbs_g dm) <=? DAILY_CARBS_MAX_G)%float
         (py_sum (map Macros.protein_g dm))
         (py_sum (map Macros.carbs_g dm))
         (match flat_map (high_carb_entry recipes) (day_slots_of plan day) with
          | [] => None
          | hc => Some hc
          end)).
Proof.
  unfold validate_meal_plan_nutrition, collect_day. rewrite nutrition_loop_spec.
  destruct (all_returned _) as [dm|e]; simpl; [|done].
  by destruct (flat_map _ _).
Qed.


Lemma slot_macros_overflow recipes (s : MealSlot.t) (e : exn) :
  slot_macros recipes s = Some (Raised e)
  <-> e = OverflowError /\ portions_overflow recipes s.
Proof.
  unfold slot_macros, portions_overflow.
  destruct (recipes !! MealSlot.recipe_id s) as [r|].
  - destruct (Recipe.macros r) as [m|] eqn:Hm.
    + split.
      * intros [= H]. apply scale_macros_Raised in H.
        pose proof (of_int_Raised _ _ H) as ->. split; [done|]. split; [|done].
        by exists r, m.
      * intros [-> [_ H]]. f_equal. by apply scale_macros_Raised.
    + split; [done|]. intros [_ [(r' & m' & [= <-] & Hm') _]]. congruence.
  - split; [done|]. by intros [_ [(r' & m' & ? & _) _]].
Qed.

Lemma slot_macros_Returned recipes (s : MealSlot.t) (m : Macros.t) :
  slot_macros recipes s = Some (Returned m) -> ~ portions_overflow recipes s.
Proof.
  unfold slot_macros, portions_overflow.
  destruct (recipes !! MealSlot.recipe_id s) as [r|]; [|done].
  destruct (Recipe.macros r) as [m0|]; [|done].
  unfold scale_macros. intros [= H] [_ Ho]. rewrite Ho in H. done.
Qed.

Lemma slot_macros_None recipes (s : MealSlot.t) :
  slot_macros recipes s = None -> ~ portions_overflow recipes s.
Proof.
  unfold slot_macros, portions_overflow.
  destruct (recipes !! MealSlot.recipe_id s) as [r|].
  - destruct (Recipe.macros r) as [m0|] eqn:Hm; [done|].
    intros _ [(r' & m' & [= <-] & Hm') _]. congruence.
  - by intros _ [(r' & m' & ? & _) _].
Qed.

(** The validation raises exactly when the portions of some slot that
    counts are too large for a float, and then raises [OverflowError]. *)
Lemma counted_raises recipes (slots : list MealSlot.t) (e : exn) :
  all_returned (omap (slot_macros recipes) slots) = Raised e
  <-> e = OverflowError /\ Exists (portions_overflow recipes) slots.
Proof.
  induction slots as [|s slots IH]; cbn [omap list_omap].
  - simpl. split; [done|]. intros [_ H]. by apply Exists_nil in H.
  - rewrite Exists_cons.
    destruct (slot_macros recipes s) as [[m|e0]|] eqn:Hs; simpl.
    + pose proof (slot_macros_Returned _ _ _ Hs) as Hno.
      destruct (all_returned _) as [r|e1]; simpl in *.
      * split; [done|]. intros [-> [H|H]]; [done|].
        assert (Returned r = Raised OverflowError) as HR by (apply IH; done).
        done.
      * split.
        -- intros Heq. apply IH in Heq as [-> H]. split; [done|by right].
        -- intros [-> [H|H]]; [done|]. by apply IH.
    + apply slot_macros_overflow in Hs as [-> Ho]. split.
      * intros [= <-]. split; [done|by left].
      * by intros [-> _].
    + pose proof (slot_macros_None _ _ Hs) as Hno. rewrite IH.
      split; [intros [-> H]; split; [done|by right]|].
      intros [-> [H|H]]; [done|]. done.
Qed.



Lemma day_slots_of_unmatched plan day :
  Forall (fun s => MealSlot.day s <> day) (MealPlan.slots plan) ->
  day_slots_of plan day = [].
Proof.
  unfold day_slots_of. induction 1 as [|s l Hs _ IH]; [done|].
  by rewrite filter_cons, decide_False.
Qed.



Lemma py_max_nonneg (x : float) : nonneg (py_max 0 x).
Proof.
  unfold nonneg, py_max. destruct (0 <? x)%float eqn:E.
  - by apply ltb_leb.
  - reflexivity.
Qed.

(** C2 (as amended): when no slot of the plan has the requested day,
    [validate_meal_plan_nutrition] raises nothing and returns totals of
    zero with no high-carb recipe; the carbohydrate check passes but the
    protein check fails (0 is below the 60 g minimum), so the overall
    [is_valid] is false. *)
Theorem validate_unmatched_day plan recipes day :
  Forall (fun s => MealSlot.day s <> day) (MealPlan.slots plan) ->
  exists res,
    validate_meal_plan_nutrition plan recipes day = Returned res
    /\ res = NutritionValidationResult.mk false true 0 0 None
    /\ NutritionValidationResult.is_valid res = false.
Proof.
  intros H. unfold validate_meal_plan_nutrition, collect_day.
  rewrite (day_slots_of_unmatched _ _ H). eexists. by split_and!.
Qed.

Lemma validate_unmatched_day_witness :
  exists res,
    validate_meal_plan_nutrition Sample.pasta_week Sample.pasta_table "funday"
    = Returned res
    /\ res = NutritionValidationResult.mk false true 0 0 None
    /\ NutritionValidationResult.is_valid res = false.
Proof.
  apply (validate_unmatched_day Sample.pasta_week Sample.pasta_table "funday").
  repeat constructor; discriminate.
Defined.

(** C2 (as stated) fails: for a day that matches no slot the call returns
    totals of zero, yet the result is not valid. *)
Lemma validate_unknown_day_not_valid :
  Forall (fun s => MealSlot.day s <> "funday") (MealPlan.slots Sample.pasta_week)
  /\ exists res,
       validate_meal_plan_nutrition Sample.pasta_week Sample.pasta_table "funday"
       = Returned res
       /\ NutritionValidationResult.protein_total res = 0%float
       /\ NutritionValidationResult.carbs_total res = 0%float
       /\ NutritionValidationResult.is_valid res = false.
Proof.
  split; [repeat constructor; discriminate|].
  eexists. split; [vm_compute; reflexivity|]. by split_and!.
Qed.

(** C6: [validate_daily_carbs] returns as its total the float sum of the
    [carbs_g], added from the left starting from zero; it is valid exactly
    when that total is at most 150.0; and its excess is [max(0, total -
    150.0)]: the difference when it is above zero, and zero otherwise, so
    never negative and never NaN, and exactly zero for a valid day.  A day
    of exactly 150.0 g is valid; a day
    of 150.01 g is invalid with the excess 0.009999999999990905, within
    1e-11 of 0.01.  The sum being rounded, 73.9 + 18.9 + 57.2 is valid at
    150.0 while 73.9 + 57.2 + 18.9 is invalid at 150.00000000000003; a NaN
    total is invalid with an excess of zero. *)
Theorem validate_daily_carbs_spec (daily_macros : list Macros.t) :
  let r := validate_daily_carbs daily_macros in
  let total := ValidationResult.total r in
  total = add_all 0 (map Macros.carbs_g daily_macros)
  /\ ValidationResult.is_valid r = (total <=? 150)%float
  /\ ValidationResult.excess r
     = (if (0 <? total - 150)%float then (total - 150)%float else 0%float)
  /\ nonneg (ValidationResult.excess r)
  /\ (ValidationResult.is_valid r = true -> ValidationResult.excess r = 0%float)
  /\ ValidationResult.target r = 150%float
  /\ ValidationResult.deficit r = 0%float
  /\ validate_daily_carbs [Macros.mk 600 30 150 20]
     = ValidationResult.mk true 150 150 0 0
  /\ validate_daily_carbs [Macros.mk 600 30 150.01 20]
     = ValidationResult.mk false 150.01 150 0 0.009999999999990905
  /\ (Qabs (PyFloat.to_Q 0.009999999999990905 - (1 # 100))
      <= 1 # 100000000000)%Q
  /\ validate_daily_carbs
       [Macros.mk 0 0 73.9 0; Macros.mk 0 0 18.9 0; Macros.mk 0 0 57.2 0]
     = ValidationResult.mk true 150 150 0 0
  /\ validate_daily_carbs
       [Macros.mk 0 0 73.9 0; Macros.mk 0 0 57.2 0; Macros.mk 0 0 18.9 0]
     = ValidationResult.mk false 150.00000000000003 150 0 2.8421709430404007e-14
  /\ validate_daily_carbs [Macros.mk 0 0 nan 0]
     = ValidationResult.mk false nan 150 0 0.
Proof.
  cbn zeta. split_and!; try reflexivity.
  - apply py_max_nonneg.
  - simpl. intros H. unfold py_max. by rewrite (sub_not_positive _ _ H).
  - apply Qle_bool_iff. vm_compute. reflexivity.
Qed.


(** The pasta, above the threshold, is eaten at two slots of the Monday
    and is listed twice. *)
Example validate_pasta_monday :
  validate_meal_plan_nutrition Sample.pasta_week Sample.pasta_table "lundi"
  = Returned (NutritionValidationResult.mk true false 60 180
                (Some ["pasta"; "pasta"])).
Proof. vm_compute. reflexivity. Qed.

(** A Monday whose second slot asks for [10 ** 400] portions: the scaling
    of the macros raises and no result is returned. *)
Example validate_feast_overflows :
  validate_meal_plan_nutrition Sample.pasta_feast Sample.pasta_table "lundi"
  = Raised OverflowError.
Proof. vm_compute. reflexivity. Qed.

End nutrition.

(** * Properties of the pantry filter *)

Section pantry.

Lemma prefix_spec (a s : string) :
  String.prefix a s = true <-> exists post, s = a +:+ post.
Proof.
  revert s. induction a as [|c a IH]; intros s; simpl.
  - destruct s; (split; [intros _; eexists; reflexivity|done]).
  - destruct s as [|c' s]; simpl.
    + split; [done|]. intros [post H]. discriminate.
    + destruct (ascii_dec c c') as [->|Hne].
      * rewrite IH. split; intros [post H]; exists post.
        -- by rewrite H.
        -- by injection H.
      * split; [done|]. intros [post H]. injection H as H1 H2. done.
Qed.

Lemma contains_spec (sub s : string) :
  PyStr.contains sub s = true <-> is_substring sub s.
Proof.
  unfold is_substring. induction s as [|c s IH]; cbn [PyStr.contains].
  - rewrite orb_false_r, prefix_spec. split.
    + intros [post H]. exists "", post. exact H.
    + intros [[|c pre] [post H]]; [by exists post|discriminate].
  - rewrite orb_true_iff, prefix_spec, IH. split.
    + intros [[post H]|(pre & post & H)].
      * exists "", post. exact H.
      * exists (String c pre), post. simpl. by rewrite H.
    + intros ([|c' pre] & post & H).
      * left. by exists post.
      * right. exists pre, post. simpl in H. by injection H.
Qed.

Lemma contains_empty (s : string) : PyStr.contains "" s = true.
Proof. by destruct s. Qed.

Lemma any_staple_matches_spec (normalized : string) (staples : list string) :
  any_staple_matches normalized staples = true
  <-> exists staple, staple ∈ staples
        /\ (PyStr.contains staple normalized = true
            \/ PyStr.contains normalized staple = true).
Proof.
  induction staples as [|st l IH]; simpl.
  - split; [done|]. intros (x & Hx & _). by apply elem_of_nil in Hx.
  - destruct (PyStr.contains st normalized || PyStr.contains normalized st) eqn:E.
    + split; [|done]. intros _. exists st. split; [apply list_elem_of_here|].
      by apply orb_true_iff.
    + rewrite IH. apply orb_false_iff in E as [E1 E2].
      split; intros (x & Hx & Hm).
      * exists x. split; [by apply list_elem_of_further|done].
      * apply elem_of_cons in Hx as [->|Hx]; [|by exists x].
        destruct Hm; congruence.
Qed.

(** C7: [_is_pantry_staple] answers true exactly when some configured
    staple occurs inside the normalized name or the normalized name occurs
    inside some configured staple. *)
Theorem is_pantry_staple_spec (name : string) :
  _is_pantry_staple name = true
  <-> exists staple, staple ∈ PANTRY_STAPLES
        /\ (is_substring staple (_normalize_ingredient_name name)
            \/ is_substring (_normalize_ingredient_name name) staple).
Proof.
  unfold _is_pantry_staple. rewrite any_staple_matches_spec.
  split; intros (st & Hin & Hm); exists st.
  - split; [by apply elem_of_elements|]. by rewrite <- !contains_spec.
  - split; [by apply elem_of_elements|]. by rewrite !contains_spec.
Qed.

Lemma elements_PANTRY_STAPLES_cons :
  exists st l, elements PANTRY_STAPLES = st :: l.
Proof. vm_compute. eauto. Qed.

Lemma is_pantry_staple_empty (name : string) :
  _normalize_ingredient_name name = "" -> _is_pantry_staple name = true.
Proof.
  intros H. unfold _is_pantry_staple. rewrite H.
  destruct elements_PANTRY_STAPLES_cons as (st & l & ->). simpl.
  by rewrite contains_empty, orb_true_r.
Qed.

End pantry.

(** * Facts about insertion-ordered dictionaries *)

Section dict_facts.
Context {K V : Type} `{EqDecision K}.
Implicit Types (d : PyDict.t K V) (k : K) (v : V).

Lemma mem_keys k d : PyDict.mem k d = true <-> k ∈ PyDict.keys d.
Proof.
  induction d as [|[k' v'] d IH]; simpl.
  - split; [done|]. intros H'. by apply elem_of_nil in H'.
  - rewrite elem_of_cons. destruct (decide (k' = k)) as [->|Hne].
    + split; auto.
    + rewrite IH. split; [auto|]. intros [E|E]; [congruence|done].
Qed.

Lemma mem_false_keys k d : PyDict.mem k d = false <-> k ∉ PyDict.keys d.
Proof.
  rewrite <- mem_keys. by destruct (PyDict.mem k d).
Qed.

Lemma mem_get k d : PyDict.mem k d = bool_decide (is_Some (PyDict.get k d)).
Proof.
  induction d as [|[k' v'] d IH]; simpl.
  - reflexivity.
  - destruct (decide (k' = k)); [reflexivity|exact IH].
Qed.

Lemma keys_update f k d : PyDict.keys (PyDict.update f k d) = PyDict.keys d.
Proof.
  induction d as [|[k' v'] d IH]; simpl; [done|].
  destruct (decide (k' = k)); simpl; [done|]. by rewrite IH.
Qed.

Lemma keys_add k v d : PyDict.keys (PyDict.add k v d) = PyDict.keys d ++ [k].
Proof. unfold PyDict.keys, PyDict.add. by rewrite map_app. Qed.

Lemma get_update f k k' d :
  PyDict.get k (PyDict.update f k' d)
  = if decide (k' = k) then f <$> PyDict.get k d else PyDict.get k d.
Proof.
  induction d as [|[k0 v0] d IH]; simpl.
  - by destruct (decide (k' = k)).
  - destruct (decide (k0 = k')) as [->|Hne]; simpl.
    + destruct (decide (k' = k)); simpl; [done|]. done.
    + destruct (decide (k0 = k)) as [->|Hne'].
      * by rewrite decide_False by congruence.
      * exact IH.
Qed.

Lemma get_add k k' v d :
  PyDict.get k (PyDict.add k' v d)
  = match PyDict.get k d with
    | Some x => Some x
    | None => if decide (k' = k) then Some v else None
    end.
Proof.
  unfold PyDict.add. induction d as [|[k0 v0] d IH]; simpl; [done|].
  by destruct (decide (k0 = k)).
Qed.

Lemma values_add k v d : PyDict.values (PyDict.add k v d) = PyDict.values d ++ [v].
Proof. unfold PyDict.values, PyDict.add. by rewrite map_app. Qed.

(** With distinct keys, the items of the dict are what [get] finds. *)
Lemma elem_of_get k v d :
  NoDup (PyDict.keys d) -> (k, v) ∈ d <-> PyDict.get k d = Some v.
Proof.
  induction d as [|[k0 v0] d IH]; simpl; intros Hnd.
  - split; [|done]. intros H'. by apply elem_of_nil in H'.
  - apply NoDup_cons in Hnd as [Hk0 Hnd]. rewrite elem_of_cons, (IH Hnd).
    destruct (decide (k0 = k)) as [->|Hne].
    + split.
      * intros [E|E]; [congruence|]. exfalso. apply Hk0.
        apply (IH Hnd) in E. apply (list_elem_of_fmap_2 fst) in E. exact E.
      * intros E. left. congruence.
    + split; [|auto]. intros [E|E]; [congruence|done].
Qed.

(** Every item of an updated dict comes from an item of the dict. *)
Lemma elem_of_update f k k' v' d :
  (k', v') ∈ PyDict.update f k d ->
  exists v, (k', v) ∈ d /\ (v' = v \/ (k' = k /\ v' = f v)).
Proof.
  induction d as [|[k0 v0] d IH]; simpl.
  - intros H'. by apply elem_of_nil in H'.
  - destruct (decide (k0 = k)) as [->|Hne]; rewrite elem_of_cons.
    + intros [E|E].
      * injection E as -> ->. exists v0. split; [apply list_elem_of_here|auto].
      * exists v'. split; [by apply list_elem_of_further|auto].
    + intros [E|E].
      * injection E as -> ->. exists v0. split; [apply list_elem_of_here|auto].
      * destruct (IH E) as (v & Hv & Hor). exists v.
        split; [by apply list_elem_of_further|done].
Qed.

End dict_facts.

(** * Facts about the stable sort *)

Section sort_facts.
Context {A K : Type} (key : A -> K) (lt : K -> K -> bool).

Hypothesis lt_asym : forall a b, lt a b = true -> lt b a = false.

Lemma insert_Permutation (x : A) (l : list A) :
  PyList.insert key lt x l ≡ₚ x :: l.
Proof.
  induction l as [|y l IH]; simpl; [done|].
  destruct (lt (key x) (key y)); [done|].
  rewrite IH. apply Permutation_swap.
Qed.

Lemma sort_loop_Permutation (l acc : list A) :
  fold_left (fun acc x => PyList.insert key lt x acc) l acc ≡ₚ acc ++ l.
Proof.
  revert acc. induction l as [|x l IH]; intros acc; simpl.
  - by rewrite app_nil_r.
  - rewrite IH, insert_Permutation. simpl. apply Permutation_middle.
Qed.

Lemma sort_Permutation (l : list A) : PyList.sort key lt l ≡ₚ l.
Proof. unfold PyList.sort. by rewrite sort_loop_Permutation. Qed.

Lemma insert_HdRel (a x : A) (l : list A) :
  not_after key lt a x -> HdRel (not_after key lt) a l ->
  HdRel (not_after key lt) a (PyList.insert key lt x l).
Proof.
  intros Hax Hal. destruct l as [|y l]; simpl; [by constructor|].
  destruct (lt (key x) (key y)); constructor; [done|].
  by inversion Hal.
Qed.

Lemma insert_Sorted (x : A) (l : list A) :
  Sorted (not_after key lt) l -> Sorted (not_after key lt) (PyList.insert key lt x l).
Proof.
  induction 1 as [|y l Hl IH Hhd]; simpl.
  - by repeat constructor.
  - destruct (lt (key x) (key y)) eqn:E.
    + constructor; [by constructor|]. constructor. by apply lt_asym.
    + constructor; [done|]. by apply insert_HdRel.
Qed.

Lemma Sorted_weaken (R R' : A -> A -> Prop) (l : list A) :
  (forall x y, R x y -> R' x y) -> Sorted R l -> Sorted R' l.
Proof.
  intros HR. induction 1 as [|x l Hl IH Hhd]; constructor; [done|].
  destruct Hhd; constructor. by apply HR.
Qed.

Lemma sort_loop_Sorted (l acc : list A) :
  Sorted (not_after key lt) acc ->
  Sorted (not_after key lt) (fold_left (fun acc x => PyList.insert key lt x acc) l acc).
Proof.
  revert acc. induction l as [|x l IH]; intros acc Hacc; simpl; [done|].
  apply IH. by apply insert_Sorted.
Qed.

Lemma sort_Sorted (l : list A) : Sorted (not_after key lt) (PyList.sort key lt l).
Proof. apply sort_loop_Sorted. constructor. Qed.

End sort_facts.

(** * Properties of [GroceryList.by_category] *)

Section by_category.
Implicit Types (d : PyDict.t IngredientCategory (list GroceryListItem.t)).
Implicit Types (l : list GroceryListItem.t) (c : IngredientCategory).

Lemma of_category_snoc c l it :
  of_category c (l ++ [it])
  = of_category c l ++ (if decide (GroceryListItem.category it = c) then [it] else []).
Proof.
  unfold of_category. rewrite filter_app, filter_cons, filter_nil.
  by destruct (decide (GroceryListItem.category it = c)).
Qed.

Lemma by_category_step_buckets d l it :
  buckets_of d l -> buckets_of (GroceryList.by_category_step d it) (l ++ [it]).
Proof.
  intros [Hnd Hget]. unfold GroceryList.by_category_step.
  set (c0 := GroceryListItem.category it).
  destruct (PyDict.mem c0 d) eqn:Hmem.
  - split; [by rewrite keys_update|]. intros c.
    rewrite get_update, Hget. unfold bucket_of. rewrite of_category_snoc.
    fold c0. destruct (decide (c0 = c)) as [<-|Hne].
    + rewrite mem_get, Hget in Hmem. unfold bucket_of in Hmem.
      destruct (of_category c0 l); [done|]. done.
    + by rewrite app_nil_r.
  - split.
    + rewrite keys_update, keys_add. apply NoDup_app. split_and!; [done| |].
      * intros x Hx Hx'. apply list_elem_of_singleton in Hx' as ->.
        by apply mem_false_keys in Hmem.
      * apply NoDup_singleton.
    + intros c. rewrite get_update, get_add, Hget.
      unfold bucket_of. rewrite of_category_snoc. fold c0.
      destruct (decide (c0 = c)) as [<-|Hne].
      * rewrite mem_get, Hget in Hmem. unfold bucket_of in Hmem.
        destruct (of_category c0 l); [done|]. done.
      * rewrite app_nil_r. by destruct (of_category c l).
Qed.

Lemma by_category_loop_buckets l' d l :
  buckets_of d l -> buckets_of (fold_left GroceryList.by_category_step l' d) (l ++ l').
Proof.
  revert d l. induction l' as [|it l' IH]; intros d l Hd; simpl.
  - by rewrite app_nil_r.
  - rewrite cons_middle, app_assoc. apply IH. by apply by_category_step_buckets.
Qed.

Lemma by_category_buckets (gl : GroceryList.t) :
  buckets_of (GroceryList.by_category gl) (GroceryList.items gl).
Proof.
  apply (by_category_loop_buckets (GroceryList.items gl) [] []).
  split; [constructor|done].
Qed.

Lemma update_concat_values d c it :
  c ∈ PyDict.keys d ->
  concat (PyDict.values (PyDict.update (fun b => b ++ [it]) c d))
  ≡ₚ it :: concat (PyDict.values d).
Proof.
  induction d as [|[c' b] d IH]; simpl; intros Hc.
  - by apply elem_of_nil in Hc.
  - destruct (decide (c' = c)) as [->|Hne]; simpl.
    + rewrite <- app_assoc. simpl. symmetry. apply Permutation_middle.
    + apply elem_of_cons in Hc as [Hc|Hc]; [congruence|].
      rewrite (IH Hc). symmetry. apply Permutation_middle.
Qed.

Lemma by_category_step_concat d it :
  concat (PyDict.values (GroceryList.by_category_step d it))
  ≡ₚ it :: concat (PyDict.values d).
Proof.
  unfold GroceryList.by_category_step.
  destruct (PyDict.mem _ d) eqn:Hmem.
  - apply update_concat_values. by apply mem_keys.
  - rewrite update_concat_values.
    + by rewrite values_add, concat_app, !app_nil_r.
    + rewrite keys_add. apply elem_of_app. right. apply list_elem_of_here.
Qed.

Lemma by_category_loop_concat l d :
  concat (PyDict.values (fold_left GroceryList.by_category_step l d))
  ≡ₚ concat (PyDict.values d) ++ l.
Proof.
  revert d. induction l as [|it l IH]; intros d; simpl.
  - by rewrite app_nil_r.
  - rewrite IH, by_category_step_concat. simpl. apply Permutation_middle.
Qed.

(** C8: [by_category] partitions the stored items.  Its keys are distinct;
    the bucket stored under a category is exactly the stored items of that
    category in their stored order, and is never empty; every item lies in
    the bucket of its own category; the buckets together hold each item as
    often as the list does; and their sizes add up to [total_items]. *)
Theorem by_category_partition (gl : GroceryList.t) :
  let d := GroceryList.by_category gl in
  NoDup (PyDict.keys d)
  /\ (forall c bucket,
        (c, bucket) ∈ d
        <-> bucket = of_category c (GroceryList.items gl) /\ bucket <> [])
  /\ (forall it, it ∈ GroceryList.items gl ->
        exists bucket, (GroceryListItem.category it, bucket) ∈ d /\ it ∈ bucket)
  /\ concat (PyDict.values d) ≡ₚ GroceryList.items gl
  /\ sum_list (length <$> PyDict.values d) = GroceryList.total_items gl.
Proof.
  cbn zeta. destruct (by_category_buckets gl) as [Hnd Hget].
  assert (Hperm : concat (PyDict.values (GroceryList.by_category gl))
                  ≡ₚ GroceryList.items gl).
  { unfold GroceryList.by_category. by rewrite by_category_loop_concat. }
  assert (Hiff : forall c bucket,
             (c, bucket) ∈ GroceryList.by_category gl
             <-> bucket = of_category c (GroceryList.items gl) /\ bucket <> []).
  { intros c bucket. rewrite (elem_of_get _ _ _ Hnd), Hget. unfold bucket_of.
    destruct (of_category c (GroceryList.items gl)) as [|x b].
    - split; [done|]. by intros [-> ?].
    - split; [by intros [= <-]|]. by intros [-> _]. }
  split_and!; [done|done| |done|].
  - intros it Hit. exists (of_category (GroceryListItem.category it) (GroceryList.items gl)).
    assert (it ∈ of_category (GroceryListItem.category it) (GroceryList.items gl)) as Hin.
    { unfold of_category. by apply list_elem_of_filter. }
    split; [|done]. apply Hiff. split; [done|].
    intros E. rewrite E in Hin. by apply elem_of_nil in Hin.
  - unfold GroceryList.total_items. rewrite <- (Permutation_length Hperm).
    clear. induction (PyDict.values _) as [|b bs IH]; [done|].
    simpl. rewrite length_app. f_equal. exact IH.
Qed.

End by_category.

(** * Properties of the aggregation *)

Section aggregation.
Implicit Types (d : PyDict.t string Entry.t) (exclude : bool).

Lemma is_pantry_staple_normalized name :
  _is_pantry_staple name = staple_of_normalized (_normalize_ingredient_name name).
Proof. reflexivity. Qed.

Lemma wf_acc_nil exclude : wf_acc exclude [].
Proof.
  split; [constructor|]. intros k e H. by apply elem_of_nil in H.
Qed.

Lemma ingredient_step_wf exclude pm d ingredient :
  wf_acc exclude d -> wf_acc exclude (ingredient_step exclude pm d ingredient).
Proof.
  intros [Hnd Hent]. unfold ingredient_step.
  destruct (exclude && _is_pantry_staple (Ingredient.name ingredient)) eqn:Hskip;
    [done|].
  destruct (PyDict.mem _ d) eqn:Hmem.
  - split; [by rewrite keys_update|].
    intros k e Hin. apply elem_of_update in Hin as (e0 & Hin & [->|[-> ->]]).
    + by apply Hent.
    + by apply Hent in Hin.
  - split.
    + rewrite keys_add. apply NoDup_app. split_and!; [done| |apply NoDup_singleton].
      intros x Hx Hx'. apply list_elem_of_singleton in Hx' as ->.
      by apply mem_false_keys in Hmem.
    + intros k e Hin. unfold PyDict.add in Hin.
      apply elem_of_app in Hin as [Hin|Hin]; [by apply Hent|].
      apply list_elem_of_singleton in Hin. injection Hin as -> ->. simpl.
      split; [done|]. intros ->. by simpl in Hskip.
Qed.

Lemma ingredients_loop_wf exclude pm ingredients d :
  wf_acc exclude d ->
  wf_acc exclude (fold_left (ingredient_step exclude pm) ingredients d).
Proof.
  revert d. induction ingredients as [|i l IH]; intros d Hd; simpl; [done|].
  apply IH. by apply ingredient_step_wf.
Qed.

Lemma slot_step_wf recipes exclude d slot d' :
  wf_acc exclude d ->
  slot_step recipes exclude d slot = Returned d' -> wf_acc exclude d'.
Proof.
  intros Hd. unfold slot_step.
  destruct (recipes !! MealSlot.recipe_id slot) as [r|]; [|by intros [= <-]].
  destruct (truediv _ _) as [pm|e]; simpl; [|done].
  intros [= <-]. by apply ingredients_loop_wf.
Qed.

Lemma slots_loop_wf recipes exclude slots d d' :
  wf_acc exclude d ->
  slots_loop recipes exclude slots d = Returned d' -> wf_acc exclude d'.
Proof.
  revert d. induction slots as [|s l IH]; intros d Hd; simpl.
  - by intros [= <-].
  - destruct (slot_step recipes exclude d s) as [d1|e] eqn:E; simpl; [|done].
    apply IH. by eapply slot_step_wf.
Qed.

(** What a returned grocery list is made of. *)
Lemma aggregate_ingredients_Returned plan recipes exclude gl :
  aggregate_ingredients plan recipes exclude = Returned gl ->
  exists d, slots_loop recipes exclude (MealPlan.slots plan) [] = Returned d
    /\ wf_acc exclude d
    /\ GroceryList.items gl
       = PyList.sort sort_key PyStr.pair_lt (map to_item (PyDict.values d)).
Proof.
  unfold aggregate_ingredients.
  destruct (slots_loop _ _ _ _) as [d|e] eqn:E; simpl; [|done].
  intros [= <-]. exists d. split_and!; [done| |done].
  eapply slots_loop_wf; [apply wf_acc_nil|done].
Qed.

Lemma aggregate_items_Permutation plan recipes exclude gl :
  aggregate_ingredients plan recipes exclude = Returned gl ->
  exists d, slots_loop recipes exclude (MealPlan.slots plan) [] = Returned d
    /\ wf_acc exclude d
    /\ GroceryList.items gl ≡ₚ map to_item (PyDict.values d).
Proof.
  intros H. apply aggregate_ingredients_Returned in H as (d & Hd & Hwf & ->).
  exists d. split_and!; [done|done|apply sort_Permutation].
Qed.

Lemma wf_acc_item_keys exclude d :
  wf_acc exclude d -> map item_key (map to_item (PyDict.values d)) = PyDict.keys d.
Proof.
  intros [_ Hent]. induction d as [|[k e] d IH]; [done|]. simpl. f_equal.
  - symmetry. apply (Hent k e). apply list_elem_of_here.
  - apply IH. intros k' e' Hin. apply Hent. by apply list_elem_of_further.
Qed.

(** C4: whatever the plan, the recipe table and the flag, a returned
    grocery list has no two items whose names share a normalized form. *)
Theorem aggregate_unique_names plan recipes exclude gl :
  aggregate_ingredients plan recipes exclude = Returned gl ->
  NoDup (map item_key (GroceryList.items gl)).
Proof.
  intros H. apply aggregate_items_Permutation in H as (d & _ & Hwf & Hperm).
  rewrite Hperm, (wf_acc_item_keys _ _ Hwf). apply Hwf.
Qed.

Lemma aggregate_unique_names_witness :
  exists gl,
    aggregate_ingredients Sample.soup_week_with_gap Sample.soup_table false
    = Returned gl
    /\ NoDup (map item_key (GroceryList.items gl)).
Proof.
  eexists. split; [vm_compute; reflexivity|].
  apply (aggregate_unique_names Sample.soup_week_with_gap Sample.soup_table false).
  vm_compute. reflexivity.
Defined.

(** C9: a name that normalizes to the empty string passes the pantry test,
    so with [exclude_pantry] set no returned item has such a name. *)
Theorem aggregate_no_blank_name plan recipes :
  (forall name, _normalize_ingredient_name name = "" -> _is_pantry_staple name = true)
  /\ (forall gl it,
        aggregate_ingredients plan recipes true = Returned gl ->
        it ∈ GroceryList.items gl ->
        _is_pantry_staple (GroceryListItem.ingredient_name it) = false
        /\ item_key it <> "").
Proof.
  split; [apply is_pantry_staple_empty|].
  intros gl it H Hit.
  apply aggregate_items_Permutation in H as (d & _ & [_ Hent] & Hperm).
  rewrite Hperm in Hit. apply list_elem_of_fmap in Hit as (e & -> & He).
  apply list_elem_of_fmap in He as ([k e'] & -> & Hin). simpl.
  destruct (Hent _ _ Hin) as [_ Hns]. specialize (Hns eq_refl).
  split; [done|]. intros Hblank. unfold item_key in Hblank. simpl in Hblank.
  apply is_pantry_staple_empty in Hblank. congruence.
Qed.

(** The exceptions of the division: [ZeroDivisionError] for a zero
    divisor and nothing else, [OverflowError] otherwise. *)
Lemma truediv_zero (a : Z) : truediv a 0 = Raised ZeroDivisionError.
Proof. reflexivity. Qed.

Lemma truediv_Raised (a b : Z) (e : exn) :
  truediv a b = Raised e ->
  (e = ZeroDivisionError /\ b = 0) \/ (e = OverflowError /\ b <> 0).
Proof.
  unfold truediv. destruct (decide (b = 0)) as [Hb|Hb].
  - intros [= <-]. by left.
  - destruct (PyFloat.nearest_ratio _ _ _); intros [= <-]; by right.
Qed.

Lemma slot_step_Raised recipes exclude d slot e :
  slot_step recipes exclude d slot = Raised e <-> division_raises recipes slot e.
Proof.
  unfold slot_step, division_raises.
  destruct (recipes !! MealSlot.recipe_id slot) as [r|].
  - destruct (truediv _ _) as [pm|e0] eqn:E; simpl.
    + split; [done|]. intros (r' & [= <-] & H). congruence.
    + split.
      * intros [= <-]. by exists r.
      * intros (r' & [= <-] & H). congruence.
  - split; [done|]. by intros (r' & ? & _).
Qed.

Lemma slot_step_Returned recipes exclude d slot :
  (exists d', slot_step recipes exclude d slot = Returned d')
  <-> division_returns recipes slot.
Proof.
  unfold slot_step, division_returns.
  destruct (recipes !! MealSlot.recipe_id slot) as [r|].
  - destruct (truediv _ _) as [pm|e0] eqn:E; simpl.
    + split; [|by eexists]. intros _ r' [= <-]. by exists pm.
    + split; [by intros [d' ?]|]. intros H.
      destruct (H r eq_refl) as [pm Hpm]. congruence.
  - split; [done|]. intros _. by eexists.
Qed.

Lemma slots_loop_Raised recipes exclude slots d e :
  slots_loop recipes exclude slots d = Raised e
  <-> exists before slot after,
        slots = before ++ slot :: after
        /\ Forall (division_returns recipes) before
        /\ division_raises recipes slot e.
Proof.
  revert d. induction slots as [|s l IH]; intros d; cbn [slots_loop].
  - split; [done|]. intros ([|? ?] & ? & ? & ? & _); done.
  - destruct (slot_step recipes exclude d s) as [d1|e0] eqn:E; simpl.
    + assert (Hs : division_returns recipes s).
      { apply (slot_step_Returned recipes exclude d s). by exists d1. }
      rewrite IH. split.
      * intros (before & slot & after & -> & Hb & Hr).
        exists (s :: before), slot, after. split_and!; [done| |done].
        by constructor.
      * intros ([|s0 before] & slot & after & Heq & Hb & Hr).
        -- simpl in Heq. injection Heq as <- <-.
           apply (slot_step_Raised recipes exclude d) in Hr. congruence.
        -- simpl in Heq. injection Heq as <- ->.
           exists before, slot, after. split_and!; [done| |done].
           by apply Forall_cons in Hb as [_ ?].
    + assert (Hs : division_raises recipes s e0).
      { by apply (slot_step_Raised recipes exclude d s). }
      split.
      * intros [= <-]. exists [], s, l. by split_and!.
      * intros ([|s0 before] & slot & after & Heq & Hb & Hr).
        -- simpl in Heq. injection Heq as <- <-.
           destruct Hs as (r & Hr1 & Hd1), Hr as (r' & Hr2 & Hd2). congruence.
        -- simpl in Heq. injection Heq as <- ->.
           apply Forall_cons in Hb as [Hb _].
           apply (slot_step_Returned recipes exclude d) in Hb as [d' Hd'].
           congruence.
Qed.

Lemma slots_loop_Returned recipes exclude slots d :
  (exists d', slots_loop recipes exclude slots d = Returned d')
  <-> Forall (division_returns recipes) slots.
Proof.
  revert d. induction slots as [|s l IH]; intros d; cbn [slots_loop].
  - split; [done|]. intros _. by eexists.
  - rewrite Forall_cons, <- (slot_step_Returned recipes exclude d s).
    destruct (slot_step recipes exclude d s) as [d1|e0]; simpl.
    + rewrite IH. split; [intros H; split; [by eexists|done]|by intros [_ ?]].
    + split; [by intros [? ?]|]. by intros [[? ?] _].
Qed.

Lemma aggregate_ingredients_Raised plan recipes exclude e :
  aggregate_ingredients plan recipes exclude = Raised e
  <-> slots_loop recipes exclude (MealPlan.slots plan) [] = Raised e.
Proof.
  unfold aggregate_ingredients.
  destruct (slots_loop _ _ _ _); simpl; split; congruence.
Qed.

(** C5 (as amended): [aggregate_ingredients] raises, and returns no grocery
    list, exactly when the division [slot.portions / recipe.servings] raises
    for some slot that resolves to a recipe, and it raises what the first
    such slot raises: [ZeroDivisionError] when the [servings] is zero,
    whatever the recipe's ingredients, and [OverflowError] when the
    [servings] is not zero but the quotient is too large for a float.  So a
    plan with a slot whose recipe has zero [servings] always raises; in
    every other case where the divisions return, a negative [servings]
    included, a list is returned. *)
Theorem aggregate_raises_iff plan recipes exclude :
  (forall e,
     aggregate_ingredients plan recipes exclude = Raised e
     <-> exists before slot after,
           MealPlan.slots plan = before ++ slot :: after
           /\ Forall (division_returns recipes) before
           /\ division_raises recipes slot e)
  /\ ((exists gl, aggregate_ingredients plan recipes exclude = Returned gl)
      <-> Forall (division_returns recipes) (MealPlan.slots plan))
  /\ (forall slot,
        slot ∈ MealPlan.slots plan -> zero_servings_slot recipes slot ->
        exists e, aggregate_ingredients plan recipes exclude = Raised e)
  /\ (forall slot e,
        division_raises recipes slot e ->
        (e = ZeroDivisionError /\ zero_servings_slot recipes slot)
        \/ (e = OverflowError /\ ~ zero_servings_slot recipes slot)).
Proof.
  assert (Hret : (exists gl, aggregate_ingredients plan recipes exclude = Returned gl)
                 <-> Forall (division_returns recipes) (MealPlan.slots plan)).
  { rewrite <- (slots_loop_Returned recipes exclude (MealPlan.slots plan) []).
    unfold aggregate_ingredients.
    destruct (slots_loop _ _ _ _) as [d|e]; simpl.
    - split; intros _; by eexists.
    - split; by intros [? ?]. }
  split_and!.
  - intros e. rewrite aggregate_ingredients_Raised. apply slots_loop_Raised.
  - exact Hret.
  - intros slot Hin (r & Hr & Hz).
    destruct (aggregate_ingredients plan recipes exclude) as [gl|e] eqn:E;
      [|by exists e].
    exfalso. assert (Hall : Forall (division_returns recipes) (MealPlan.slots plan)).
    { apply Hret. by exists gl. }
    rewrite Forall_forall in Hall. destruct (Hall slot Hin r Hr) as [pm Hpm].
    rewrite Hz, truediv_zero in Hpm. discriminate.
  - intros slot e (r & Hr & Hd).
    destruct (truediv_Raised _ _ _ Hd) as [[-> Hz]|[-> Hnz]].
    + left. split; [done|]. by exists r.
    + right. split; [done|]. intros (r' & Hr' & Hz). congruence.
Qed.

Example aggregate_broth_zero_servings :
  aggregate_ingredients Sample.broth_week Sample.broth_table0 true
  = Raised ZeroDivisionError.
Proof. reflexivity. Qed.

(** A slot whose division overflows, met first, decides the exception,
    also when a later slot has a recipe of zero [servings]. *)
Example aggregate_feast_overflows :
  aggregate_ingredients Sample.feast_week Sample.feast_table true
  = Raised OverflowError.
Proof. vm_compute. reflexivity. Qed.

(** C5 (as stated) fails for a negative [servings]: the recipe below has
    [servings = -2] and one ingredient, and the aggregation returns a list
    whose single item has the quantity [100 * (1 / -2)], that is [-50]. *)
Lemma aggregate_negative_servings_returns :
  Recipe.servings Sample.broth_neg <= 0
  /\ Recipe.ingredients Sample.broth_neg <> []
  /\ Sample.broth_table_neg !! MealSlot.recipe_id Sample.broth_slot
     = Some Sample.broth_neg
  /\ exists it,
       aggregate_ingredients Sample.broth_week Sample.broth_table_neg true
       = Returned (GroceryList.mk [it])
       /\ GroceryListItem.ingredient_name it = "Navet"
       /\ GroceryListItem.total_quantity it = (-50)%float.
Proof.
  split; [done|]. split; [done|]. split; [reflexivity|].
  eexists. split; [vm_compute; reflexivity|]. by split.
Qed.

(** ** The order of the returned list *)

Lemma ltb_asym (a b : string) : String.ltb a b = true -> String.ltb b a = false.
Proof.
  unfold String.ltb. rewrite (String.compare_antisym a b).
  by destruct (String.compare b a).
Qed.

Lemma ltb_false_leb (a b : string) : String.ltb b a = false <-> String.leb a b = true.
Proof.
  unfold String.ltb, String.leb. rewrite (String.compare_antisym a b).
  by destruct (String.compare b a).
Qed.

Lemma leb_trans (a b c : string) :
  String.leb a b = true -> String.leb b c = true -> String.leb a c = true.
Proof.
  intros H1 H2. apply Is_true_true.
  apply Is_true_true in H1, H2.
  exact (transitivity (R := String.le) H1 H2).
Qed.

Lemma pair_lt_asym (x y : string * string) :
  PyStr.pair_lt x y = true -> PyStr.pair_lt y x = false.
Proof.
  unfold PyStr.pair_lt, PyStr.lt. rewrite (String.eqb_sym y.1 x.1).
  destruct (String.eqb x.1 y.1); apply ltb_asym.
Qed.

Lemma value_rank_spec (a b : IngredientCategory) :
  String.ltb (value a) (value b) = (value_rank a <? value_rank b)%nat.
Proof. by destruct a, b. Qed.

Lemma value_inj (a b : IngredientCategory) : value a = value b -> a = b.
Proof. by destruct a, b. Qed.

Lemma not_after_item_le (x y : GroceryListItem.t) :
  not_after sort_key PyStr.pair_lt x y <-> item_le x y.
Proof.
  unfold not_after, sort_key, PyStr.pair_lt, PyStr.lt, item_le. simpl.
  destruct (String.eqb_spec (value (GroceryListItem.category y))
              (value (GroceryListItem.category x))) as [E|E].
  - apply value_inj in E. rewrite ltb_false_leb, E. split; [auto|].
    intros [H|[_ H]]; [lia|done].
  - rewrite value_rank_spec, Nat.ltb_ge. split.
    + intros H. left. apply Nat.le_lteq in H as [H|H]; [done|].
      exfalso. apply E. f_equal.
      by destruct (GroceryListItem.category x), (GroceryListItem.category y).
    + intros [H|[H _]]; [lia|]. by rewrite H in E.
Qed.

#[local] Instance item_le_trans : Transitive item_le.
Proof.
  intros x y z [H1|[E1 H1]] [H2|[E2 H2]]; unfold item_le.
  - left. lia.
  - left. by rewrite <- E2.
  - left. by rewrite E1.
  - right. split; [congruence|]. by eapply leb_trans.
Qed.

(** C3 (as amended): a returned grocery list is sorted ascending by the
    pair of its category's [value] string and its lower-cased name, so the
    categories come in the alphabetical order of their values (autre,
    boissons, epicerie, frais, fruits, legumes, proteines, surgeles), and
    within a category the lower-cased names ascend. *)
Theorem aggregate_sorted plan recipes exclude gl :
  aggregate_ingredients plan recipes exclude = Returned gl ->
  StronglySorted item_le (GroceryList.items gl).
Proof.
  intros H. apply aggregate_ingredients_Returned in H as (d & _ & _ & ->).
  apply Sorted_StronglySorted; [apply item_le_trans|].
  eapply Sorted_weaken; [|apply sort_Sorted, pair_lt_asym].
  intros x y. apply not_after_item_le.
Qed.

Lemma aggregate_sorted_witness :
  exists gl,
    aggregate_ingredients Sample.soup_week_with_gap Sample.soup_table true
    = Returned gl
    /\ StronglySorted item_le (GroceryList.items gl).
Proof.
  eexists. split; [vm_compute; reflexivity|].
  apply (aggregate_sorted Sample.soup_week_with_gap Sample.soup_table true).
  vm_compute. reflexivity.
Defined.

(** C3 (as stated) fails: the soup week yields the rice (grocery) before
    the carrots (produce), which the presentation order forbids. *)
Lemma aggregate_not_presentation_sorted :
  exists rice carrots,
    aggregate_ingredients Sample.soup_week Sample.soup_table true
    = Returned (GroceryList.mk [rice; carrots])
    /\ GroceryListItem.category rice = EPICERIE
    /\ GroceryListItem.category carrots = LEGUMES
    /\ ~ Sorted presentation_le [rice; carrots].
Proof.
  eexists _, _. split; [vm_compute; reflexivity|].
  split; [done|]. split; [done|].
  intros H. apply Sorted_inv in H as [_ H]. apply HdRel_inv in H.
  destruct H as [H|[H _]]; simpl in H; [lia|discriminate].
Qed.

(** ** The quantity accumulated under one normalized name *)

Lemma ingredient_step_get exclude pm d j k :
  (exclude = true -> staple_of_normalized k = false) ->
  PyDict.get k (ingredient_step exclude pm d j)
  = if decide (_normalize_ingredient_name (Ingredient.name j) = k)
    then Some match PyDict.get k d with
              | Some e => Entry.add_quantity (Ingredient.quantity j * pm) e
              | None =>
                  Entry.mk (Ingredient.name j) (Ingredient.quantity j * pm)
                    (Ingredient.unit j) (_get_category (Ingredient.category j))
              end
    else PyDict.get k d.
Proof.
  intros Hk. unfold ingredient_step.
  destruct (exclude && _is_pantry_staple (Ingredient.name j)) eqn:Hskip.
  - apply andb_true_iff in Hskip as [-> Hst].
    rewrite decide_False; [done|]. intros <-.
    rewrite is_pantry_staple_normalized, Hk in Hst; done.
  - destruct (PyDict.mem _ d) eqn:Hmem.
    + rewrite get_update.
      destruct (decide (_ = k)) as [<-|Hne]; [|done].
      rewrite mem_get in Hmem. apply bool_decide_eq_true in Hmem as [e He].
      by rewrite He.
    + rewrite get_add.
      destruct (decide (_ = k)) as [<-|Hne].
      * rewrite mem_get in Hmem. apply bool_decide_eq_false in Hmem.
        destruct (PyDict.get _ d) as [e|]; [|done].
        exfalso. apply Hmem. by exists e.
      * by destruct (PyDict.get k d).
Qed.

Lemma ingredients_loop_get_absent exclude pm ingredients d k :
  (exclude = true -> staple_of_normalized k = false) ->
  filter (fun j => _normalize_ingredient_name (Ingredient.name j) = k) ingredients
  = [] ->
  PyDict.get k (fold_left (ingredient_step exclude pm) ingredients d)
  = PyDict.get k d.
Proof.
  intros Hk. revert d. induction ingredients as [|j l IH]; intros d; [done|].
  rewrite filter_cons. cbn [fold_left].
  destruct (decide (_normalize_ingredient_name (Ingredient.name j) = k)) as [E|E];
    [done|].
  intros Hnil. rewrite (IH _ Hnil), (ingredient_step_get _ _ _ _ _ Hk).
  by rewrite decide_False.
Qed.

Lemma ingredients_loop_get_unique exclude pm ingredients d k i :
  (exclude = true -> staple_of_normalized k = false) ->
  filter (fun j => _normalize_ingredient_name (Ingredient.name j) = k) ingredients
  = [i] ->
  PyDict.get k (fold_left (ingredient_step exclude pm) ingredients d)
  = Some match PyDict.get k d with
         | Some e => Entry.add_quantity (Ingredient.quantity i * pm) e
         | None =>
             Entry.mk (Ingredient.name i) (Ingredient.quantity i * pm)
               (Ingredient.unit i) (_get_category (Ingredient.category i))
         end.
Proof.
  intros Hk. revert d. induction ingredients as [|j l IH]; intros d; [done|].
  rewrite filter_cons. cbn [fold_left].
  destruct (decide (_normalize_ingredient_name (Ingredient.name j) = k)) as [E|E].
  - intros [= -> Hnil].
    rewrite (ingredients_loop_get_absent _ _ _ _ _ Hk Hnil).
    rewrite (ingredient_step_get _ _ _ _ _ Hk). by rewrite decide_True.
  - intros Hi. rewrite (IH _ Hi), (ingredient_step_get _ _ _ _ _ Hk).
    by rewrite decide_False.
Qed.

Lemma pour_cons exclude pm ingredients s slots d :
  pour exclude pm ingredients (s :: slots) d
  = pour exclude pm ingredients slots
      (fold_left (ingredient_step exclude pm) ingredients d).
Proof. reflexivity. Qed.

Lemma slots_loop_uniform recipes exclude slots d rid r P pm :
  recipes !! rid = Some r ->
  truediv P (Recipe.servings r) = Returned pm ->
  Forall (fun s => MealSlot.recipe_id s = rid /\ MealSlot.portions s = P) slots ->
  slots_loop recipes exclude slots d
  = Returned (pour exclude pm (Recipe.ingredients r) slots d).
Proof.
  intros Hr Hpm Hall. revert d.
  induction Hall as [|s l [Hid HP] _ IH]; intros d; [done|].
  rewrite pour_cons. cbn [slots_loop]. unfold slot_step.
  rewrite Hid, Hr, HP, Hpm. simpl. apply IH.
Qed.

Lemma pour_get_present exclude pm ingredients slots d k i e :
  (exclude = true -> staple_of_normalized k = false) ->
  filter (fun j => _normalize_ingredient_name (Ingredient.name j) = k) ingredients
  = [i] ->
  PyDict.get k d = Some e ->
  PyDict.get k (pour exclude pm ingredients slots d)
  = Some (Entry.mk (Entry.name e)
            (add_again (Ingredient.quantity i * pm) (length slots) (Entry.quantity e))
            (Entry.unit e) (Entry.category e)).
Proof.
  intros Hk Hi. revert d e. induction slots as [|s l IH]; intros d e He.
  - simpl. rewrite He. by destruct e.
  - rewrite pour_cons.
    rewrite (IH _ (Entry.add_quantity (Ingredient.quantity i * pm) e)).
    + cbn [length]. unfold add_again. by rewrite Nat.iter_succ_r.
    + by rewrite (ingredients_loop_get_unique _ _ _ _ _ _ Hk Hi), He.
Qed.

Lemma pour_get_unique exclude pm ingredients s slots k i :
  (exclude = true -> staple_of_normalized k = false) ->
  filter (fun j => _normalize_ingredient_name (Ingredient.name j) = k) ingredients
  = [i] ->
  PyDict.get k (pour exclude pm ingredients (s :: slots) [])
  = Some (Entry.mk (Ingredient.name i)
            (add_again (Ingredient.quantity i * pm) (length slots)
               (Ingredient.quantity i * pm))
            (Ingredient.unit i) (_get_category (Ingredient.category i))).
Proof.
  intros Hk Hi. rewrite pour_cons.
  rewrite (pour_get_present _ _ _ _ _ k i
             (Entry.mk (Ingredient.name i) (Ingredient.quantity i * pm)
                (Ingredient.unit i) (_get_category (Ingredient.category i)))
             Hk Hi); [done|].
  by rewrite (ingredients_loop_get_unique _ _ _ _ _ _ Hk Hi).
Qed.

Lemma filter_item_key_absent d k :
  (forall k' e', (k', e') ∈ d -> k' = _normalize_ingredient_name (Entry.name e')) ->
  k ∉ PyDict.keys d ->
  filter (fun it => item_key it = k) (map to_item (PyDict.values d)) = [].
Proof.
  induction d as [|[k0 e0] d IH]; intros Hent Hk; [reflexivity|].
  simpl. simpl in Hk. apply not_elem_of_cons in Hk as [Hk0 Hk].
  rewrite filter_cons, decide_False.
  - apply IH; [|exact Hk]. intros k' e' Hin. apply Hent. by apply list_elem_of_further.
  - unfold item_key. simpl. rewrite <- (Hent k0 e0); [congruence|apply list_elem_of_here].
Qed.

Lemma filter_item_key_present exclude d k e :
  wf_acc exclude d ->
  PyDict.get k d = Some e ->
  filter (fun it => item_key it = k) (map to_item (PyDict.values d)) = [to_item e].
Proof.
  intros [Hnd Hent] Hget.
  assert (Hkeys : forall k' e', (k', e') ∈ d ->
            k' = _normalize_ingredient_name (Entry.name e')).
  { intros k' e' Hin. by apply Hent. }
  clear Hent. induction d as [|[k0 e0] d IH]; [discriminate|].
  simpl in *. apply NoDup_cons in Hnd as [Hk0 Hnd].
  assert (Hhead : item_key (to_item e0) = k0).
  { unfold item_key. simpl. symmetry. apply Hkeys. apply list_elem_of_here. }
  assert (Hrest : forall k' e', (k', e') ∈ d ->
            k' = _normalize_ingredient_name (Entry.name e')).
  { intros k' e' Hin. apply Hkeys. by apply list_elem_of_further. }
  rewrite filter_cons. destruct (decide (k0 = k)) as [->|Hne].
  - injection Hget as ->. rewrite decide_True by exact Hhead.
    f_equal. by apply filter_item_key_absent.
  - rewrite decide_False by congruence. by apply IH.
Qed.

(** C1 (as amended): when every slot of a non-empty plan uses the same
    recipe, present in the table, at [P] portions each, and the division of
    [P] by the recipe's [servings] returns the multiplier [pm], then for
    every ingredient of the recipe that is not excluded as a pantry staple
    and whose normalized name no other ingredient of the recipe shares, the
    call returns a list with exactly one item of that normalized name; the
    item carries the ingredient's name and unit, and its quantity is the
    float [quantity * pm] added to itself once per further slot, each
    addition rounded: [N] terms for [N] slots. *)
Theorem aggregate_repeated_recipe plan recipes exclude rid r P pm i :
  recipes !! rid = Some r ->
  truediv P (Recipe.servings r) = Returned pm ->
  MealPlan.slots plan <> [] ->
  Forall (fun s => MealSlot.recipe_id s = rid /\ MealSlot.portions s = P)
    (MealPlan.slots plan) ->
  filter (fun j => _normalize_ingredient_name (Ingredient.name j)
                   = _normalize_ingredient_name (Ingredient.name i))
    (Recipe.ingredients r) = [i] ->
  (exclude = true -> _is_pantry_staple (Ingredient.name i) = false) ->
  exists gl it,
    aggregate_ingredients plan recipes exclude = Returned gl
    /\ filter (fun x => item_key x = _normalize_ingredient_name (Ingredient.name i))
         (GroceryList.items gl) = [it]
    /\ GroceryListItem.ingredient_name it = Ingredient.name i
    /\ GroceryListItem.unit it = Ingredient.unit i
    /\ GroceryListItem.total_quantity it
       = add_again (Ingredient.quantity i * pm)
           (length (MealPlan.slots plan) - 1) (Ingredient.quantity i * pm).
Proof.
  intros Hr Hpm Hne Hall Huniq Hstaple.
  set (k := _normalize_ingredient_name (Ingredient.name i)) in *.
  set (d := pour exclude pm (Recipe.ingredients r) (MealPlan.slots plan) []).
  assert (Hloop : slots_loop recipes exclude (MealPlan.slots plan) [] = Returned d).
  { apply slots_loop_uniform with (rid := rid) (P := P); assumption. }
  assert (Hwf : wf_acc exclude d).
  { eapply slots_loop_wf; [apply wf_acc_nil|exact Hloop]. }
  assert (Hget : PyDict.get k d
                 = Some (Entry.mk (Ingredient.name i)
                           (add_again (Ingredient.quantity i * pm)
                              (length (MealPlan.slots plan) - 1)
                              (Ingredient.quantity i * pm))
                           (Ingredient.unit i)
                           (_get_category (Ingredient.category i)))).
  { unfold d. destruct (MealPlan.slots plan) as [|s l];
      [exfalso; apply Hne; reflexivity|].
    cbn [length]. rewrite Nat.sub_succ, Nat.sub_0_r.
    apply pour_get_unique; [exact Hstaple|exact Huniq]. }
  clear Hstaple.
  eexists (GroceryList.mk (PyList.sort sort_key PyStr.pair_lt
                             (map to_item (PyDict.values d)))), _.
  split_and!.
  - unfold aggregate_ingredients. by rewrite Hloop.
  - apply Permutation_singleton_r.
    rewrite <- (filter_item_key_present exclude d k _ Hwf Hget).
    apply filter_Permutation. simpl. apply sort_Permutation.
  - reflexivity.
  - reflexivity.
  - reflexivity.
Qed.

Lemma aggregate_repeated_recipe_witness :
  exists gl it,
    aggregate_ingredients Sample.soup_week Sample.soup_table true = Returned gl
    /\ filter (fun x => item_key x = "riz") (GroceryList.items gl) = [it]
    /\ GroceryListItem.ingredient_name it = "Riz"
    /\ GroceryListItem.unit it = "g"
    /\ GroceryListItem.total_quantity it = add_again (300 * 0.5) 1 (300 * 0.5).
Proof.
  apply (aggregate_repeated_recipe Sample.soup_week Sample.soup_table true
           "soup" Sample.soup 2 0.5 (Sample.ingredient "Riz" 300 "g" "epicerie")).
  - reflexivity.
  - reflexivity.
  - discriminate.
  - repeat constructor.
  - reflexivity.
  - intros _. vm_compute. reflexivity.
Defined.

(** C1 (as stated) fails in two ways.  When two ingredients of the recipe
    share a normalized name: the soup lists 200 g of "Carotte", which is no
    staple, and is used twice at 2 portions for 4 servings, yet the one
    carrot item carries 300 and not [2 * 2 * (200 / 4)], which is 200.  And
    by rounding: the dal lists 100 g of lentils for 3 servings and is used
    three times at 1 portion, and the item carries 99.99999999999999, below
    the [3 * 1 * (100 / 3)] of the formula, which is 100 both as a number
    and as computed in floats. *)
Lemma aggregate_repeated_recipe_fails :
  (exists gl it,
     aggregate_ingredients Sample.soup_week Sample.soup_table true = Returned gl
     /\ Sample.ingredient "Carotte" 200 "g" "legumes" ∈ Recipe.ingredients Sample.soup
     /\ _is_pantry_staple "Carotte" = false
     /\ filter (fun x => item_key x = _normalize_ingredient_name "Carotte")
          (GroceryList.items gl) = [it]
     /\ GroceryListItem.total_quantity it = 300%float
     /\ (2 * 2 * (200 / 4) = 200)%float)
  /\ (exists gl it,
        aggregate_ingredients Sample.dal_week Sample.dal_table true = Returned gl
        /\ Sample.lentils ∈ Recipe.ingredients Sample.dal
        /\ _is_pantry_staple "Lentilles" = false
        /\ filter (fun x => item_key x = _normalize_ingredient_name "Lentilles")
             (GroceryList.items gl) = [it]
        /\ GroceryListItem.total_quantity it = 99.99999999999999%float
        /\ (3 * 1 * (100 / 3) = 100)%float
        /\ (PyFloat.to_Q (GroceryListItem.total_quantity it) < 3 * 1 * (100 / 3))%Q).
Proof.
  split.
  - eexists _, _. split; [vm_compute; reflexivity|].
    split; [apply list_elem_of_here|]. split; [by vm_compute|].
    split; [reflexivity|]. split; reflexivity.
  - eexists _, _. split; [vm_compute; reflexivity|].
    split; [apply list_elem_of_here|]. split; [by vm_compute|].
    split; [reflexivity|]. split; [reflexivity|]. split; [reflexivity|].
    by vm_compute.
Qed.

End aggregation.

(** * Further properties of the nutrition validator *)

Section nutrition_more.

(** X1: [validate_daily_protein] returns as its total the float sum of the
    [protein_g], added from the left starting from zero; it is valid
    exactly when 60.0 is at most that total; its deficit is [max(0, 60.0 -
    total)]: the difference when it is above zero, and zero otherwise, so
    never negative and never NaN; it is zero for a valid day and, the total
    being a number, above zero for an invalid one; and [excess] stays zero.
    A day of exactly
    60 g is valid and a day of 59.99 g is invalid with the deficit
    0.00999999999999801.  The sum being rounded, the four meals 4.31, 33.58,
    14.98 and 7.13 g are valid at 60.00000000000001 although the numbers
    these floats stand for add up to less than 60; a NaN total is invalid
    with a deficit of zero. *)
Theorem validate_daily_protein_spec (daily_macros : list Macros.t) :
  let r := validate_daily_protein daily_macros in
  let total := ValidationResult.total r in
  total = add_all 0 (map Macros.protein_g daily_macros)
  /\ ValidationResult.is_valid r = (60 <=? total)%float
  /\ ValidationResult.deficit r
     = (if (0 <? 60 - total)%float then (60 - total)%float else 0%float)
  /\ nonneg (ValidationResult.deficit r)
  /\ (ValidationResult.is_valid r = true -> ValidationResult.deficit r = 0%float)
  /\ (ValidationResult.is_valid r = false -> is_nan total = false ->
      ValidationResult.deficit r = (60 - total)%float
      /\ (0 <? ValidationResult.deficit r)%float = true)
  /\ ValidationResult.target r = 60%float
  /\ ValidationResult.excess r = 0%float
  /\ validate_daily_protein [Macros.mk 600 60 40 20]
     = ValidationResult.mk true 60 60 0 0
  /\ validate_daily_protein [Macros.mk 600 59.99 40 20]
     = ValidationResult.mk false 59.99 60 0.00999999999999801 0
  /\ validate_daily_protein
       [Macros.mk 0 4.31 0 0; Macros.mk 0 33.58 0 0;
        Macros.mk 0 14.98 0 0; Macros.mk 0 7.13 0 0]
     = ValidationResult.mk true 60.00000000000001 60 0 0
  /\ (PyFloat.to_Q 4.31 + PyFloat.to_Q 33.58 + PyFloat.to_Q 14.98
      + PyFloat.to_Q 7.13 < 60)%Q
  /\ validate_daily_protein [Macros.mk 0 nan 0 0]
     = ValidationResult.mk false nan 60 0 0.
Proof.
  cbn zeta. split_and!; try reflexivity.
  - apply py_max_nonneg.
  - simpl. intros H. unfold py_max. by rewrite (sub_not_positive _ _ H).
  - simpl. intros H Hnan. unfold py_max.
    pose proof (sub_positive DAILY_PROTEIN_MIN_G _
                  (eq_refl : is_nan 60 = false) Hnan H) as Hp.
    rewrite Hp. split; [reflexivity|exact Hp].
Qed.

(** X2: the carbohydrate check is consistent with the excess it reports.
    The excess is never negative and never NaN.  For a total that is a
    number, the excess is zero for a valid day and, for an invalid one, the
    rounded difference [total - 150.0], which is above zero.  A NaN total is
    invalid with an excess of zero.  [deficit] stays zero.  The total less
    the excess can exceed 150: for a total of [2 ** 55] the excess is
    [2 ** 55 - 152], the rounded difference, and the total less the excess
    is 152. *)
Theorem validate_daily_carbs_excess (daily_macros : list Macros.t) :
  let r := validate_daily_carbs daily_macros in
  let total := ValidationResult.total r in
  nonneg (ValidationResult.excess r)
  /\ (ValidationResult.is_valid r = true -> ValidationResult.excess r = 0%float)
  /\ (ValidationResult.is_valid r = false -> is_nan total = false ->
      ValidationResult.excess r = (total - 150)%float
      /\ (0 <? ValidationResult.excess r)%float = true)
  /\ (is_nan total = true ->
      ValidationResult.is_valid r = false /\ ValidationResult.excess r = 0%float)
  /\ ValidationResult.deficit r = 0%float
  /\ validate_daily_carbs [Macros.mk 0 0 36028797018963968 0]
     = ValidationResult.mk false 36028797018963968 150 0 36028797018963816
  /\ (36028797018963968 - 36028797018963816 = 152)%float.
Proof.
  cbn zeta. split_and!; try reflexivity.
  - apply py_max_nonneg.
  - simpl. intros H. unfold py_max. by rewrite (sub_not_positive _ _ H).
  - simpl. intros H Hnan. unfold py_max.
    pose proof (sub_positive _ DAILY_CARBS_MAX_G Hnan
                  (eq_refl : is_nan 150 = false) H) as Hp.
    rewrite Hp. split; [reflexivity|exact Hp].
  - simpl. intros Hnan. split; [by apply nan_leb_l|].
    unfold py_max. by rewrite (nan_sub_l _ _ Hnan).
Qed.


Lemma nutrition_step_uncounted recipes st (s : MealSlot.t) :
  slot_macros recipes s = None -> nutrition_step recipes st s = Returned st.
Proof.
  destruct st as [dm hc]. intros H. by rewrite nutrition_step_cases, H.
Qed.

Lemma nutrition_loop_counted recipes (slots : list MealSlot.t) st :
  nutrition_loop recipes
    (filter (fun s => is_Some (slot_macros recipes s)) slots) st
  = nutrition_loop recipes slots st.
Proof.
  revert st. induction slots as [|s slots IH]; intros st; [done|].
  rewrite filter_cons. destruct (decide (is_Some (slot_macros recipes s))) as [Hs|Hs].
  - cbn [nutrition_loop]. destruct (nutrition_step recipes st s); simpl; [apply IH|done].
  - cbn [nutrition_loop]. rewrite IH.
    rewrite nutrition_step_uncounted by (by apply eq_None_not_Some). done.
Qed.

(** X4: only the slots of the requested day that resolve to a recipe with
    macros matter: dropping every other slot from the plan (another day, an
    unknown recipe id, a recipe without macros) leaves the result of
    [validate_meal_plan_nutrition] unchanged. *)
Theorem validate_meal_plan_relevant_slots plan (recipes : gmap string Recipe.t) day :
  validate_meal_plan_nutrition
    (with_slots plan
       (filter (fun s => MealSlot.day s = day /\ is_Some (slot_macros recipes s))
          (MealPlan.slots plan)))
    recipes day
  = validate_meal_plan_nutrition plan recipes day.
Proof.
  unfold validate_meal_plan_nutrition, collect_day, day_slots_of. simpl.
  rewrite list_filter_filter.
  rewrite (list_filter_iff
             (fun s => MealSlot.day s = day
                       /\ MealSlot.day s = day /\ is_Some (slot_macros recipes s))
             (fun s => is_Some (slot_macros recipes s) /\ MealSlot.day s = day))
    by (intros s; tauto).
  rewrite <- list_filter_filter. by rewrite nutrition_loop_counted.
Qed.

Lemma high_carb_entry_Permutation recipes (l l' : list MealSlot.t) :
  l ≡ₚ l' ->
  flat_map (high_carb_entry recipes) l ≡ₚ flat_map (high_carb_entry recipes) l'.
Proof.
  induction 1 as [|x l l' _ IH|x y l|l l' l'' _ IH1 _ IH2]; simpl.
  - done.
  - by rewrite IH.
  - rewrite !app_assoc. apply Permutation_app_tail, Permutation_app_comm.
  - by rewrite IH1.
Qed.

Lemma portions_overflow_Permutation recipes (l l' : list MealSlot.t) :
  l ≡ₚ l' ->
  Exists (portions_overflow recipes) l -> Exists (portions_overflow recipes) l'.
Proof.
  intros Hperm. rewrite !Exists_exists. intros (s & Hs & Ho).
  exists s. split; [|done]. by rewrite <- Hperm.
Qed.

(** X5: what the order of the slots can and cannot change.  For two plans
    whose slots are permutations of each other, either both validations
    raise, the same exception, or both return, and then they flag the same
    high-carb recipe ids up to order, absent together.  The totals and the
    flags are not preserved, the float sum depending on the order: three
    dishes of 73.9, 18.9 and 57.2 g of carbohydrates make a valid Tuesday of
    150.0 g, and the same dishes served in the order 73.9, 57.2, 18.9 make
    an invalid one of 150.00000000000003 g. *)
Theorem validate_meal_plan_slot_order plan plan' (recipes : gmap string Recipe.t) day :
  (MealPlan.slots plan ≡ₚ MealPlan.slots plan' ->
   match validate_meal_plan_nutrition plan recipes day,
         validate_meal_plan_nutrition plan' recipes day with
   | Returned r, Returned r' =>
       default [] (NutritionValidationResult.high_carb_recipes r)
       ≡ₚ default [] (NutritionValidationResult.high_carb_recipes r')
       /\ (NutritionValidationResult.high_carb_recipes r = None
           <-> NutritionValidationResult.high_carb_recipes r' = None)
   | Raised e, Raised e' => e = e'
   | _, _ => False
   end)
  /\ MealPlan.slots Sample.tuesday ≡ₚ MealPlan.slots Sample.tuesday_reordered
  /\ validate_meal_plan_nutrition Sample.tuesday Sample.dish_table "mardi"
     = Returned (NutritionValidationResult.mk true true 75 150
                   (Some ["gratin"; "risotto"]))
  /\ validate_meal_plan_nutrition Sample.tuesday_reordered Sample.dish_table "mardi"
     = Returned (NutritionValidationResult.mk true false 75 150.00000000000003
                   (Some ["gratin"; "risotto"])).
Proof.
  split_and!.
  - intros Hperm.
    assert (Hday : day_slots_of plan day ≡ₚ day_slots_of plan' day).
    { unfold day_slots_of. by rewrite Hperm. }
    pose proof (high_carb_entry_Permutation recipes _ _ Hday) as Hhc.
    pose proof (counted_raises recipes (day_slots_of plan day)) as Hr.
    pose proof (counted_raises recipes (day_slots_of plan' day)) as Hr'.
    rewrite !validate_meal_plan_nutrition_fields.
    destruct (all_returned (omap (slot_macros recipes) (day_slots_of plan day)))
      as [dm|e],
      (all_returned (omap (slot_macros recipes) (day_slots_of plan' day)))
      as [dm'|e']; simpl.
    + destruct (flat_map _ (day_slots_of plan day)) as [|x l] eqn:E1,
        (flat_map _ (day_slots_of plan' day)) as [|y l'] eqn:E2; simpl.
      * done.
      * apply Permutation_nil_l in Hhc. discriminate.
      * apply Permutation_nil_r in Hhc. discriminate.
      * split; [exact Hhc|]. done.
    + destruct (proj1 (Hr' e') eq_refl) as [_ He'].
      apply (portions_overflow_Permutation recipes _ (day_slots_of plan day)) in He';
        [|by symmetry].
      assert (Returned dm = Raised OverflowError) as HR by (by apply Hr).
      discriminate.
    + destruct (proj1 (Hr e) eq_refl) as [_ He].
      apply (portions_overflow_Permutation recipes _ (day_slots_of plan' day)) in He;
        [|done].
      assert (Returned dm' = Raised OverflowError) as HR by (by apply Hr').
      discriminate.
    + destruct (proj1 (Hr e) eq_refl) as [-> _].
      by destruct (proj1 (Hr' e') eq_refl) as [-> _].
  - simpl. apply perm_skip, perm_swap.
  - vm_compute. reflexivity.
  - vm_compute. reflexivity.
Qed.

End nutrition_more.

(** * Properties of normalization and classification *)

Section normalization.

Lemma lower_char_idem (c : ascii) :
  PyStr.lower_char (PyStr.lower_char c) = PyStr.lower_char c.
Proof. destruct c as [[] [] [] [] [] [] [] []]; reflexivity. Qed.

Lemma isspace_lower_char (c : ascii) :
  PyStr.isspace (PyStr.lower_char c) = PyStr.isspace c.
Proof. destruct c as [[] [] [] [] [] [] [] []]; reflexivity. Qed.

Lemma lower_idem (s : string) : PyStr.lower (PyStr.lower s) = PyStr.lower s.
Proof. induction s as [|c s IH]; simpl; [done|]. by rewrite lower_char_idem, IH. Qed.

Lemma lower_app (a b : string) :
  PyStr.lower (a +:+ b) = PyStr.lower a +:+ PyStr.lower b.
Proof. induction a as [|c a IH]; simpl; [done|]. by rewrite IH. Qed.

Lemma lower_lstrip (s : string) :
  PyStr.lower (PyStr.lstrip s) = PyStr.lstrip (PyStr.lower s).
Proof.
  induction s as [|c s IH]; simpl; [done|].
  rewrite isspace_lower_char. by destruct (PyStr.isspace c).
Qed.

Lemma lower_rstrip (s : string) :
  PyStr.lower (PyStr.rstrip s) = PyStr.rstrip (PyStr.lower s).
Proof.
  induction s as [|c s IH]; simpl; [done|].
  rewrite <- IH, isspace_lower_char.
  destruct (PyStr.rstrip s); simpl; [|done]. by destruct (PyStr.isspace c).
Qed.

Lemma lower_strip (s : string) :
  PyStr.lower (PyStr.strip s) = PyStr.strip (PyStr.lower s).
Proof. unfold PyStr.strip. by rewrite lower_rstrip, lower_lstrip. Qed.

Lemma lstrip_no_lead (s : string) : no_lead (PyStr.lstrip s).
Proof.
  induction s as [|c s IH]; simpl; [done|].
  by destruct (PyStr.isspace c) eqn:E.
Qed.

Lemma lstrip_of_no_lead (s : string) : no_lead s -> PyStr.lstrip s = s.
Proof. destruct s as [|c s]; simpl; [done|]. by intros ->. Qed.

Lemma rstrip_no_lead (s : string) : no_lead s -> no_lead (PyStr.rstrip s).
Proof.
  destruct s as [|c s]; simpl; [done|]. intros Hc.
  destruct (PyStr.rstrip s); [by rewrite Hc|done].
Qed.

Lemma rstrip_cons (c : ascii) (s : string) :
  PyStr.rstrip (String c s)
  = match PyStr.rstrip s with
    | EmptyString => if PyStr.isspace c then EmptyString else String c EmptyString
    | r => String c r
    end.
Proof. reflexivity. Qed.

Lemma rstrip_idem (s : string) : PyStr.rstrip (PyStr.rstrip s) = PyStr.rstrip s.
Proof.
  induction s as [|c s IH]; [done|].
  rewrite (rstrip_cons c s). destruct (PyStr.rstrip s) as [|a r] eqn:E.
  - destruct (PyStr.isspace c) eqn:Hc; [done|].
    rewrite rstrip_cons. simpl. by rewrite Hc.
  - by rewrite rstrip_cons, IH.
Qed.

Lemma strip_idem (s : string) : PyStr.strip (PyStr.strip s) = PyStr.strip s.
Proof.
  unfold PyStr.strip.
  rewrite (lstrip_of_no_lead (PyStr.rstrip (PyStr.lstrip s))).
  - apply rstrip_idem.
  - apply rstrip_no_lead, lstrip_no_lead.
Qed.

Lemma all_space_lower (w : string) : all_space (PyStr.lower w) = all_space w.
Proof.
  induction w as [|c w IH]; simpl; [done|]. by rewrite isspace_lower_char, IH.
Qed.

Lemma lstrip_all_space (w : string) : all_space w = true -> PyStr.lstrip w = "".
Proof.
  induction w as [|c w IH]; simpl; [done|].
  intros [-> Hw]%andb_true_iff. by apply IH.
Qed.

Lemma lstrip_pad_l (w s : string) :
  all_space w = true -> PyStr.lstrip (w +:+ s) = PyStr.lstrip s.
Proof.
  induction w as [|c w IH]; simpl; [done|].
  intros [-> Hw]%andb_true_iff. by apply IH.
Qed.

Lemma rstrip_all_space (w : string) : all_space w = true -> PyStr.rstrip w = "".
Proof.
  induction w as [|c w IH]; simpl; [done|].
  intros [-> Hw]%andb_true_iff. by rewrite (IH Hw).
Qed.

Lemma rstrip_pad_r (s w : string) :
  all_space w = true -> PyStr.rstrip (s +:+ w) = PyStr.rstrip s.
Proof.
  intros Hw. induction s as [|c s IH]; simpl.
  - by apply rstrip_all_space.
  - by rewrite IH.
Qed.

Lemma lstrip_pad_r (s w : string) :
  all_space w = true ->
  PyStr.rstrip (PyStr.lstrip (s +:+ w)) = PyStr.rstrip (PyStr.lstrip s).
Proof.
  intros Hw. induction s as [|c s IH].
  - change (PyStr.rstrip (PyStr.lstrip w) = "").
    by rewrite (lstrip_all_space _ Hw).
  - change (String c s +:+ w) with (String c (s +:+ w)).
    cbn [PyStr.lstrip]. destruct (PyStr.isspace c); [exact IH|].
    change (String c (s +:+ w)) with (String c s +:+ w).
    by apply rstrip_pad_r.
Qed.

Lemma strip_pad (w1 s w2 : string) :
  all_space w1 = true -> all_space w2 = true ->
  PyStr.strip (w1 +:+ s +:+ w2) = PyStr.strip s.
Proof.
  intros H1 H2. unfold PyStr.strip.
  by rewrite (lstrip_pad_l _ _ H1), (lstrip_pad_r _ _ H2).
Qed.

Lemma get_category_normalized (s : string) :
  _get_category s = default AUTRE (CATEGORY_MAPPING !! _normalize_ingredient_name s).
Proof. reflexivity. Qed.

Lemma normalize_idem (name : string) :
  _normalize_ingredient_name (_normalize_ingredient_name name)
  = _normalize_ingredient_name name.
Proof.
  unfold _normalize_ingredient_name.
  by rewrite lower_strip, lower_idem, strip_idem.
Qed.

Lemma normalize_lower (name : string) :
  _normalize_ingredient_name (PyStr.lower name) = _normalize_ingredient_name name.
Proof. unfold _normalize_ingredient_name. by rewrite lower_idem. Qed.

Lemma normalize_pad (w1 name w2 : string) :
  all_space w1 = true -> all_space w2 = true ->
  _normalize_ingredient_name (w1 +:+ name +:+ w2) = _normalize_ingredient_name name.
Proof.
  intros H1 H2. unfold _normalize_ingredient_name.
  rewrite !lower_app. apply strip_pad; by rewrite all_space_lower.
Qed.

Lemma CATEGORY_MAPPING_not_AUTRE (k : string) :
  CATEGORY_MAPPING !! k <> Some AUTRE.
Proof.
  intros H. unfold CATEGORY_MAPPING in H.
  apply elem_of_list_to_map_2 in H.
  repeat (apply elem_of_cons in H as [H|H]; [discriminate|]).
  by apply elem_of_nil in H.
Qed.

(** X6: normalization is idempotent and already lower-cases: normalizing a
    name twice, or lower-casing it first, gives the same normalized name, and
    neither the pantry verdict nor the category found for a label changes
    when the text is normalized beforehand. *)
Theorem normalize_idempotent (name : string) :
  _normalize_ingredient_name (_normalize_ingredient_name name)
  = _normalize_ingredient_name name
  /\ _normalize_ingredient_name (PyStr.lower name) = _normalize_ingredient_name name
  /\ _is_pantry_staple (_normalize_ingredient_name name) = _is_pantry_staple name
  /\ _get_category (_normalize_ingredient_name name) = _get_category name.
Proof.
  split_and!.
  - apply normalize_idem.
  - apply normalize_lower.
  - unfold _is_pantry_staple. by rewrite normalize_idem.
  - by rewrite !get_category_normalized, normalize_idem.
Qed.

(** X7: whitespace around a text is ignored: padding it on both sides with
    whitespace changes neither its normalized form, nor the pantry verdict,
    nor the category found for it. *)
Theorem normalize_ignores_padding (w1 name w2 : string) :
  all_space w1 = true ->
  all_space w2 = true ->
  _normalize_ingredient_name (w1 +:+ name +:+ w2) = _normalize_ingredient_name name
  /\ _is_pantry_staple (w1 +:+ name +:+ w2) = _is_pantry_staple name
  /\ _get_category (w1 +:+ name +:+ w2) = _get_category name.
Proof.
  intros H1 H2. pose proof (normalize_pad w1 name w2 H1 H2) as E.
  split_and!; [exact E| |].
  - unfold _is_pantry_staple. by rewrite E.
  - by rewrite !get_category_normalized, E.
Qed.

Lemma normalize_ignores_padding_witness :
  _normalize_ingredient_name ("  " +:+ "Legumes" +:+ " ")
  = _normalize_ingredient_name "Legumes"
  /\ _is_pantry_staple ("  " +:+ "Legumes" +:+ " ") = _is_pantry_staple "Legumes"
  /\ _get_category ("  " +:+ "Legumes" +:+ " ") = _get_category "Legumes".
Proof.
  apply (normalize_ignores_padding "  " "Legumes" " "); reflexivity.
Defined.

(** X8: the classifier inverts the enum's [value]: the value string of every
    category is classified as that category; and a label is classified as
    something other than AUTRE exactly when its normalized form is a key of
    the mapping, every other label falling back to AUTRE. *)
Theorem get_category_value (c : IngredientCategory) (label : string) :
  _get_category (value c) = c
  /\ (is_Some (CATEGORY_MAPPING !! _normalize_ingredient_name label)
      <-> _get_category label <> AUTRE)
  /\ (CATEGORY_MAPPING !! _normalize_ingredient_name label = None
      -> _get_category label = AUTRE).
Proof.
  split_and!.
  - by destruct c; vm_compute.
  - rewrite get_category_normalized. split.
    + intros [x Hx]. rewrite Hx. simpl. intros ->.
      by apply CATEGORY_MAPPING_not_AUTRE in Hx.
    + destruct (CATEGORY_MAPPING !! _) as [x|]; [by eexists|]. simpl. done.
  - rewrite get_category_normalized. by intros ->.
Qed.

End normalization.

(** * Further properties of the aggregation *)

Section aggregation_more.

Lemma slots_loop_known recipes exclude (slots : list MealSlot.t) d :
  slots_loop recipes exclude
    (filter (fun s => is_Some (recipes !! MealSlot.recipe_id s)) slots) d
  = slots_loop recipes exclude slots d.
Proof.
  revert d. induction slots as [|s slots IH]; intros d; [done|].
  rewrite filter_cons.
  destruct (decide (is_Some (recipes !! MealSlot.recipe_id s))) as [Hs|Hs].
  - cbn [slots_loop]. destruct (slot_step recipes exclude d s); simpl; [apply IH|done].
  - rewrite IH. cbn [slots_loop]. unfold slot_step.
    apply eq_None_not_Some in Hs. by rewrite Hs.
Qed.

(** X9: a slot whose recipe id is not in the table is skipped without any
    effect: removing all such slots from the plan changes nothing to what
    [aggregate_ingredients] returns or raises. *)
Theorem aggregate_skips_unknown_recipes plan (recipes : gmap string Recipe.t) exclude :
  aggregate_ingredients
    (with_slots plan
       (filter (fun s => is_Some (recipes !! MealSlot.recipe_id s))
          (MealPlan.slots plan)))
    recipes exclude
  = aggregate_ingredients plan recipes exclude.
Proof. unfold aggregate_ingredients. simpl. by rewrite slots_loop_known. Qed.

Lemma ingredient_step_exclude pm d (i : Ingredient.t) :
  ingredient_step true pm d i
  = if _is_pantry_staple (Ingredient.name i) then d else ingredient_step false pm d i.
Proof. unfold ingredient_step. simpl. by destruct (_is_pantry_staple _). Qed.

Lemma ingredients_loop_without_staples pm (ingredients : list Ingredient.t) d :
  fold_left (ingredient_step false pm)
    (filter (fun i => _is_pantry_staple (Ingredient.name i) = false) ingredients) d
  = fold_left (ingredient_step true pm) ingredients d.
Proof.
  revert d. induction ingredients as [|i l IH]; intros d; [done|].
  rewrite filter_cons. cbn [fold_left]. rewrite ingredient_step_exclude, <- IH.
  destruct (decide (_is_pantry_staple (Ingredient.name i) = false)) as [E|E].
  - by rewrite E.
  - apply not_false_is_true in E. by rewrite E.
Qed.

Lemma slots_loop_without_staples (recipes : gmap string Recipe.t)
    (slots : list MealSlot.t) d :
  slots_loop (without_staples <$> recipes) false slots d
  = slots_loop recipes true slots d.
Proof.
  revert d. induction slots as [|s slots IH]; intros d; [done|].
  cbn [slots_loop]. unfold slot_step. rewrite lookup_fmap.
  destruct (recipes !! MealSlot.recipe_id s) as [r|]; simpl; [|apply IH].
  destruct (truediv _ _) as [pm|e]; simpl; [|done].
  rewrite ingredients_loop_without_staples. apply IH.
Qed.

(** X10: excluding pantry staples is the same as first deleting the staple
    ingredients from every recipe of the table and then aggregating with the
    exclusion switched off: both calls return the same list or raise alike. *)
Theorem aggregate_exclude_as_filter plan (recipes : gmap string Recipe.t) :
  aggregate_ingredients plan (without_staples <$> recipes) false
  = aggregate_ingredients plan recipes true.
Proof. unfold aggregate_ingredients. by rewrite slots_loop_without_staples. Qed.

Lemma ingredient_step_skip exclude pm d (i : Ingredient.t) :
  ingredient_step exclude pm d i
  = if exclude && _is_pantry_staple (Ingredient.name i)
    then d else ingredient_step false pm d i.
Proof.
  unfold ingredient_step. simpl.
  by destruct (exclude && _is_pantry_staple (Ingredient.name i)).
Qed.

Lemma ingredients_loop_uses exclude pm (ingredients : list Ingredient.t) d :
  fold_left (ingredient_step exclude pm) ingredients d
  = fold_left use_step
      (map (fun i => (i, pm))
         (filter (fun i => exclude && _is_pantry_staple (Ingredient.name i) = false)
            ingredients))
      d.
Proof.
  revert d. induction ingredients as [|i l IH]; intros d; [done|].
  rewrite filter_cons. cbn [fold_left]. rewrite ingredient_step_skip, IH.
  destruct (decide (exclude && _is_pantry_staple (Ingredient.name i) = false))
    as [E|E].
  - by rewrite E.
  - apply not_false_is_true in E. by rewrite E.
Qed.

Lemma slots_loop_uses recipes exclude (slots : list MealSlot.t) d d' :
  slots_loop recipes exclude slots d = Returned d' ->
  d' = fold_left use_step (flat_map (slot_uses recipes exclude) slots) d.
Proof.
  revert d. induction slots as [|s slots IH]; intros d; [by intros [= <-]|].
  cbn [slots_loop flat_map]. rewrite fold_left_app.
  unfold slot_step, slot_uses.
  destruct (recipes !! MealSlot.recipe_id s) as [r|]; simpl; [|apply IH].
  destruct (truediv _ _) as [pm|e]; simpl; [|done].
  rewrite ingredients_loop_uses. apply IH.
Qed.

Lemma use_step_get d (u : Ingredient.t * float) (k : string) :
  PyDict.get k (use_step d u)
  = if decide (use_key u = k)
    then Some match PyDict.get k d with
              | Some e => Entry.add_quantity (use_quantity u) e
              | None =>
                  Entry.mk (Ingredient.name u.1) (use_quantity u)
                    (Ingredient.unit u.1) (_get_category (Ingredient.category u.1))
              end
    else PyDict.get k d.
Proof.
  unfold use_step. apply ingredient_step_get. discriminate.
Qed.

Lemma uses_loop_get (uses : list (Ingredient.t * float)) d (k : string) :
  match PyDict.get k (fold_left use_step uses d) with
  | Some e' => entry_from e' (PyDict.get k d) (filter (fun u => use_key u = k) uses)
  | None => PyDict.get k d = None /\ filter (fun u => use_key u = k) uses = []
  end.
Proof.
  revert d. induction uses as [|u uses IH]; intros d.
  - simpl. destruct (PyDict.get k d) as [e|] eqn:E; [|done].
    unfold entry_from. simpl. by split_and!.
  - cbn [fold_left]. specialize (IH (use_step d u)).
    rewrite use_step_get in IH. rewrite filter_cons.
    destruct (decide (use_key u = k)) as [Hk|Hk]; [|exact IH].
    destruct (PyDict.get k (fold_left use_step uses (use_step d u))) as [e'|];
      [|by destruct IH].
    unfold entry_from in IH. destruct IH as (Hn & Hu & Hc & Hq).
    unfold entry_from. destruct (PyDict.get k d) as [e|].
    + simpl in *. by split_and!.
    + simpl in *. eexists _, _. split_and!; [done|done|done|done|]. exact Hq.
Qed.

Lemma aggregate_items_from_uses plan (recipes : gmap string Recipe.t) exclude gl :
  aggregate_ingredients plan recipes exclude = Returned gl ->
  (forall it, it ∈ GroceryList.items gl ->
     exists u rest,
       filter (fun u => use_key u = item_key it) (plan_uses plan recipes exclude)
       = u :: rest
       /\ GroceryListItem.ingredient_name it = Ingredient.name u.1
       /\ GroceryListItem.unit it = Ingredient.unit u.1
       /\ GroceryListItem.category it = _get_category (Ingredient.category u.1)
       /\ GroceryListItem.total_quantity it
          = add_all (use_quantity u) (map use_quantity rest))
  /\ (forall u, u ∈ plan_uses plan recipes exclude ->
        exists it, it ∈ GroceryList.items gl /\ item_key it = use_key u).
Proof.
  intros H. apply aggregate_items_Permutation in H as (d & Hd & [Hnd Hent] & Hperm).
  apply slots_loop_uses in Hd. fold (plan_uses plan recipes exclude) in Hd.
  split.
  - intros it Hit. rewrite Hperm in Hit.
    apply list_elem_of_fmap in Hit as (e & -> & He).
    apply list_elem_of_fmap in He as ([k e'] & -> & Hin). simpl.
    destruct (Hent _ _ Hin) as [Hk _].
    apply (elem_of_get _ _ _ Hnd) in Hin.
    pose proof (uses_loop_get (plan_uses plan recipes exclude) [] k) as Hspec.
    rewrite <- Hd, Hin in Hspec. simpl in Hspec.
    destruct Hspec as (u & rest & Hf & Hn & Hu & Hc & Hq).
    exists u, rest. unfold item_key. simpl. rewrite <- Hk.
    split_and!; [done|done|done|done|exact Hq].
  - intros u Hu.
    pose proof (uses_loop_get (plan_uses plan recipes exclude) [] (use_key u)) as Hspec.
    rewrite <- Hd in Hspec.
    destruct (PyDict.get (use_key u) d) as [e|] eqn:E.
    + exists (to_item e). split.
      * rewrite Hperm. apply list_elem_of_fmap. exists e. split; [done|].
        apply list_elem_of_fmap. exists (use_key u, e). split; [done|].
        by apply (elem_of_get _ _ _ Hnd).
      * apply (elem_of_get _ _ _ Hnd) in E. unfold item_key. simpl.
        symmetry. by apply Hent.
    + destruct Hspec as [_ Hnil]. exfalso.
      exact (filter_nil_not_elem_of _ _ u Hnil eq_refl Hu).
Qed.

(** X11: what each returned item is made of.  Take the uses of ingredients
    by the plan in the order the slots and the recipes list them (staples
    left out when they are excluded), each with its multiplier, the float
    [portions / servings].  Every returned item has at least one use of its
    normalized name; it shows the name, the unit and the classified category
    of the first such use, and its quantity is the float product [quantity *
    multiplier] of that first use, to which the products of the later uses
    are added one after the other, in order, each addition rounded, units
    not being compared.  And every use has an item of its normalized
    name. *)
Theorem aggregate_item_spec plan (recipes : gmap string Recipe.t) exclude gl :
  aggregate_ingredients plan recipes exclude = Returned gl ->
  (forall it, it ∈ GroceryList.items gl ->
     exists u rest,
       filter (fun u => use_key u = item_key it) (plan_uses plan recipes exclude)
       = u :: rest
       /\ GroceryListItem.ingredient_name it = Ingredient.name u.1
       /\ GroceryListItem.unit it = Ingredient.unit u.1
       /\ GroceryListItem.category it = _get_category (Ingredient.category u.1)
       /\ GroceryListItem.total_quantity it
          = add_all (use_quantity u) (map use_quantity rest))
  /\ (forall u, u ∈ plan_uses plan recipes exclude ->
        exists it, it ∈ GroceryList.items gl /\ item_key it = use_key u).
Proof. apply aggregate_items_from_uses. Qed.

Lemma aggregate_item_spec_witness :
  exists gl,
    aggregate_ingredients Sample.soup_week Sample.soup_table true = Returned gl
    /\ (forall it, it ∈ GroceryList.items gl ->
          exists u rest,
            filter (fun u => use_key u = item_key it)
              (plan_uses Sample.soup_week Sample.soup_table true)
            = u :: rest
            /\ GroceryListItem.ingredient_name it = Ingredient.name u.1
            /\ GroceryListItem.unit it = Ingredient.unit u.1
            /\ GroceryListItem.category it = _get_category (Ingredient.category u.1)
            /\ GroceryListItem.total_quantity it
               = add_all (use_quantity u) (map use_quantity rest))
    /\ (forall u, u ∈ plan_uses Sample.soup_week Sample.soup_table true ->
          exists it, it ∈ GroceryList.items gl /\ item_key it = use_key u).
Proof.
  eexists. split; [vm_compute; reflexivity|].
  apply (aggregate_item_spec Sample.soup_week Sample.soup_table true).
  vm_compute. reflexivity.
Defined.

Lemma sort_items_StronglySorted (l : list GroceryListItem.t) :
  StronglySorted item_le (PyList.sort sort_key PyStr.pair_lt l).
Proof.
  apply Sorted_StronglySorted; [apply item_le_trans|].
  eapply Sorted_weaken; [|apply sort_Sorted, pair_lt_asym].
  intros x y. apply not_after_item_le.
Qed.

Lemma of_category_name_sorted c (l : list GroceryListItem.t) :
  StronglySorted item_le l -> StronglySorted name_le (of_category c l).
Proof.
  unfold of_category. induction l as [|x l IH]; [constructor|].
  intros [Hx Hl]%StronglySorted_cons. rewrite filter_cons.
  destruct (decide (GroceryListItem.category x = c)) as [Hc|Hc]; [|by apply IH].
  apply StronglySorted_cons. split; [|by apply IH].
  apply Forall_forall. intros y [Hy Hin]%list_elem_of_filter.
  rewrite Forall_forall in Hx. destruct (Hx y Hin) as [Hlt|[_ Hle]]; [|exact Hle].
  rewrite Hc, Hy in Hlt. lia.
Qed.

Lemma aggregate_item_keys_NoDup plan recipes exclude gl :
  aggregate_ingredients plan recipes exclude = Returned gl ->
  NoDup (map item_key (GroceryList.items gl)).
Proof.
  intros H. apply aggregate_items_Permutation in H as (d & _ & Hwf & Hperm).
  rewrite Hperm, (wf_acc_item_keys _ _ Hwf). apply Hwf.
Qed.

(** X12: grouping an aggregated list keeps it ready for display: every
    bucket that [by_category] builds from a list returned by
    [aggregate_ingredients] is non-empty, holds only items of its category,
    lists them by ascending lower-cased name, and holds no two items of the
    same normalized name. *)
Theorem by_category_of_aggregate plan (recipes : gmap string Recipe.t)
    exclude gl c bucket :
  aggregate_ingredients plan recipes exclude = Returned gl ->
  (c, bucket) ∈ GroceryList.by_category gl ->
  bucket <> []
  /\ Forall (fun it => GroceryListItem.category it = c) bucket
  /\ StronglySorted name_le bucket
  /\ NoDup (map item_key bucket).
Proof.
  intros Hagg Hin.
  destruct (by_category_buckets gl) as [Hnd Hget].
  apply (elem_of_get _ _ _ Hnd) in Hin. rewrite Hget in Hin.
  unfold bucket_of in Hin.
  assert (Hb : bucket = of_category c (GroceryList.items gl) /\ bucket <> []).
  { destruct (of_category c (GroceryList.items gl)); [done|].
    injection Hin as <-. done. }
  destruct Hb as [-> Hne]. split_and!.
  - exact Hne.
  - apply Forall_forall. by intros y [Hy _]%list_elem_of_filter.
  - apply of_category_name_sorted.
    apply aggregate_ingredients_Returned in Hagg as (d & _ & _ & ->).
    apply sort_items_StronglySorted.
  - eapply sublist_NoDup; [by eapply aggregate_item_keys_NoDup|].
    apply fmap_sublist, sublist_filter.
Qed.

Lemma by_category_of_aggregate_witness :
  exists gl bucket,
    aggregate_ingredients Sample.soup_week Sample.soup_table true = Returned gl
    /\ (LEGUMES, bucket) ∈ GroceryList.by_category gl
    /\ bucket <> []
    /\ Forall (fun it => GroceryListItem.category it = LEGUMES) bucket
    /\ StronglySorted name_le bucket
    /\ NoDup (map item_key bucket).
Proof.
  eexists _, _. split; [vm_compute; reflexivity|].
  split; [vm_compute; apply list_elem_of_further, list_elem_of_here|].
  eapply (by_category_of_aggregate Sample.soup_week Sample.soup_table true).
  - vm_compute. reflexivity.
  - vm_compute. apply list_elem_of_further, list_elem_of_here.
Defined.

Lemma uses_loop_get_filter (uses : list (Ingredient.t * float)) d d' (k : string) :
  PyDict.get k d = PyDict.get k d' ->
  PyDict.get k (fold_left use_step uses d)
  = PyDict.get k (fold_left use_step (filter (fun u => use_key u = k) uses) d').
Proof.
  revert d d'. induction uses as [|u uses IH]; intros d d' Hd; [done|].
  rewrite filter_cons. cbn [fold_left].
  destruct (decide (use_key u = k)) as [Hk|Hk].
  - cbn [fold_left]. apply IH. rewrite !use_step_get, Hd. done.
  - apply IH. rewrite use_step_get, decide_False by done. exact Hd.
Qed.

Lemma filter_key_uses (pm : float) (ingredients : list Ingredient.t) (k : string)
    (P1 P2 : Ingredient.t -> Prop)
    `{!forall i, Decision (P1 i)} `{!forall i, Decision (P2 i)} :
  (forall i, _normalize_ingredient_name (Ingredient.name i) = k -> P1 i <-> P2 i) ->
  filter (fun u => use_key u = k) (map (fun i => (i, pm)) (filter P1 ingredients))
  = filter (fun u => use_key u = k) (map (fun i => (i, pm)) (filter P2 ingredients)).
Proof.
  intros HP. induction ingredients as [|i l IH]; [done|].
  rewrite !(filter_cons _ i).
  destruct (decide (_normalize_ingredient_name (Ingredient.name i) = k)) as [Hk|Hk].
  - destruct (decide (P1 i)) as [H1|H1], (decide (P2 i)) as [H2|H2].
    + cbn [map]. rewrite !(filter_cons _ (i, pm)). by rewrite IH.
    + exfalso. apply H2. by apply (HP i Hk).
    + exfalso. apply H1. by apply (HP i Hk).
    + exact IH.
  - assert (Hskip : forall l', filter (fun u => use_key u = k) ((i, pm) :: l')
                               = filter (fun u => use_key u = k) l').
    { intros l'. rewrite filter_cons. by rewrite decide_False. }
    destruct (decide (P1 i)), (decide (P2 i)); cbn [map]; by rewrite ?Hskip.
Qed.

Lemma slot_uses_filter_key recipes (s : MealSlot.t) (k : string) :
  staple_of_normalized k = false ->
  filter (fun u => use_key u = k) (slot_uses recipes true s)
  = filter (fun u => use_key u = k) (slot_uses recipes false s).
Proof.
  intros Hk. unfold slot_uses.
  destruct (recipes !! MealSlot.recipe_id s) as [r|]; [|done].
  destruct (truediv _ _) as [pm|e]; [|done].
  apply filter_key_uses. intros i Hi. simpl.
  rewrite is_pantry_staple_normalized, Hi, Hk. done.
Qed.

Lemma plan_uses_filter_key plan recipes (k : string) :
  staple_of_normalized k = false ->
  filter (fun u => use_key u = k) (plan_uses plan recipes true)
  = filter (fun u => use_key u = k) (plan_uses plan recipes false).
Proof.
  intros Hk. unfold plan_uses.
  induction (MealPlan.slots plan) as [|s l IH]; [done|].
  cbn [flat_map]. rewrite !filter_app, IH. f_equal.
  by apply slot_uses_filter_key.
Qed.

Lemma slots_loop_exclude_raises recipes (slots : list MealSlot.t) d d' e :
  slots_loop recipes true slots d = Raised e ->
  slots_loop recipes false slots d' = Raised e.
Proof.
  revert d d'. induction slots as [|s l IH]; intros d d'; [done|].
  cbn [slots_loop]. unfold slot_step.
  destruct (recipes !! MealSlot.recipe_id s) as [r|]; simpl; [|apply IH].
  destruct (truediv _ _) as [pm|e0]; simpl; [apply IH|done].
Qed.

Lemma StronglySorted_filter {A} (R : A -> A -> Prop) (P : A -> Prop)
    `{!forall x, Decision (P x)} (l : list A) :
  StronglySorted R l -> StronglySorted R (filter P l).
Proof.
  induction l as [|x l IH]; [constructor|].
  intros [Hx Hl]%StronglySorted_cons. rewrite filter_cons.
  destruct (decide (P x)); [|by apply IH].
  apply StronglySorted_cons. split; [|by apply IH].
  apply Forall_forall. intros y [_ Hy]%list_elem_of_filter.
  rewrite Forall_forall in Hx. by apply Hx.
Qed.

Lemma NoDup_fmap_eq {A B} (f : A -> B) (l : list A) (x y : A) :
  NoDup (map f l) -> x ∈ l -> y ∈ l -> f x = f y -> x = y.
Proof.
  induction l as [|a l IH]; simpl; intros Hnd Hx Hy Hf.
  - by apply elem_of_nil in Hx.
  - apply NoDup_cons in Hnd as [Ha Hnd].
    apply elem_of_cons in Hx as [->|Hx], Hy as [->|Hy].
    + done.
    + exfalso. apply Ha. rewrite Hf. by apply (list_elem_of_fmap_2 f).
    + exfalso. apply Ha. rewrite <- Hf. by apply (list_elem_of_fmap_2 f).
    + by apply IH.
Qed.

Lemma item_le_antisym_key (x y : GroceryListItem.t) :
  item_le x y -> item_le y x -> item_key x = item_key y.
Proof.
  intros [H1|[E1 H1]] [H2|[E2 H2]]; try lia.
  - rewrite E2 in H1. lia.
  - rewrite E1 in H2. lia.
  - unfold item_key, _normalize_ingredient_name.
    by rewrite (String.leb_antisym _ _ H1 H2).
Qed.

Lemma wf_acc_items_NoDup exclude d :
  wf_acc exclude d -> NoDup (map item_key (map to_item (PyDict.values d))).
Proof. intros Hwf. rewrite (wf_acc_item_keys _ _ Hwf). apply Hwf. Qed.

Lemma elem_of_items exclude d (x : GroceryListItem.t) :
  wf_acc exclude d ->
  x ∈ map to_item (PyDict.values d)
  <-> exists e, PyDict.get (item_key x) d = Some e /\ x = to_item e.
Proof.
  intros [Hnd Hent]. split.
  - intros (e & -> & He)%list_elem_of_fmap.
    apply list_elem_of_fmap in He as ([k e'] & -> & Hin). simpl.
    exists e'. split; [|done]. apply (elem_of_get _ _ _ Hnd).
    destruct (Hent _ _ Hin) as [Hk _]. unfold item_key. simpl. by rewrite <- Hk.
  - intros (e & Hget & ->). apply list_elem_of_fmap. exists e. split; [done|].
    apply list_elem_of_fmap. exists (item_key (to_item e), e). split; [done|].
    by apply (elem_of_get _ _ _ Hnd).
Qed.

(** X16: excluding pantry staples only removes items and never alters the
    ones that stay: whenever the aggregation with [exclude_pantry] off
    returns a list, the aggregation with it on returns exactly that list
    with the items whose name is a staple deleted, in the same order and
    with the same names, quantities, units and categories. *)
Theorem aggregate_exclude_drops_staples plan (recipes : gmap string Recipe.t) gl' :
  aggregate_ingredients plan recipes false = Returned gl' ->
  exists gl,
    aggregate_ingredients plan recipes true = Returned gl
    /\ GroceryList.items gl
       = filter (fun it => _is_pantry_staple (GroceryListItem.ingredient_name it) = false)
           (GroceryList.items gl').
Proof.
  intros H'. apply aggregate_ingredients_Returned in H' as (d' & Hd' & Hwf' & Hgl').
  unfold aggregate_ingredients.
  destruct (slots_loop recipes true (MealPlan.slots plan) []) as [d|e] eqn:Hd.
  2:{ apply (slots_loop_exclude_raises _ _ _ []) in Hd. congruence. }
  simpl. eexists. split; [reflexivity|]. simpl. rewrite Hgl'.
  assert (Hwf : wf_acc true d).
  { eapply slots_loop_wf; [apply wf_acc_nil|exact Hd]. }
  set (L := map to_item (PyDict.values d)).
  set (L' := map to_item (PyDict.values d')).
  assert (Hget : forall k, staple_of_normalized k = false ->
                           PyDict.get k d = PyDict.get k d').
  { intros k Hk. apply slots_loop_uses in Hd, Hd'. rewrite Hd, Hd'.
    fold (plan_uses plan recipes true). fold (plan_uses plan recipes false).
    rewrite (uses_loop_get_filter (plan_uses plan recipes true) [] [] k eq_refl).
    rewrite (uses_loop_get_filter (plan_uses plan recipes false) [] [] k eq_refl).
    by rewrite (plan_uses_filter_key plan recipes k Hk). }
  clear Hd Hd'.
  assert (Helem : forall x, x ∈ L <->
            x ∈ L' /\ _is_pantry_staple (GroceryListItem.ingredient_name x) = false).
  { intros x. unfold L, L'.
    rewrite (elem_of_items _ _ _ Hwf), (elem_of_items _ _ _ Hwf'). split.
    - intros (e & He & ->).
      assert (Hin : (item_key (to_item e), e) ∈ d).
      { apply elem_of_get; [apply Hwf|done]. }
      destruct Hwf as [_ Hent]. destruct (Hent _ _ Hin) as [_ Hns].
      specialize (Hns eq_refl). split; [|exact Hns].
      exists e. split; [|done]. rewrite <- Hget; [exact He|].
      unfold item_key. simpl. by rewrite <- is_pantry_staple_normalized.
    - intros [(e & He & ->) Hns]. exists e. split; [|done].
      rewrite Hget; [exact He|]. unfold item_key. simpl in *.
      by rewrite <- is_pantry_staple_normalized. }
  apply (StronglySorted_unique_strong item_le).
  - intros x1 x2 Hx1 Hx2 H12 H21.
    apply (NoDup_fmap_eq item_key L').
    + by eapply wf_acc_items_NoDup.
    + rewrite (sort_Permutation sort_key PyStr.pair_lt L) in Hx1.
      by apply Helem in Hx1 as [? _].
    + apply list_elem_of_filter in Hx2 as [_ Hx2].
      by rewrite (sort_Permutation sort_key PyStr.pair_lt L') in Hx2.
    + by apply item_le_antisym_key.
  - apply sort_items_StronglySorted.
  - apply StronglySorted_filter, sort_items_StronglySorted.
  - rewrite !sort_Permutation. apply NoDup_Permutation.
    + eapply NoDup_fmap_1. by eapply wf_acc_items_NoDup.
    + apply NoDup_filter. eapply NoDup_fmap_1. by eapply wf_acc_items_NoDup.
    + intros x. rewrite Helem, list_elem_of_filter. tauto.
Qed.

Lemma aggregate_exclude_drops_staples_witness :
  exists gl' gl,
    aggregate_ingredients Sample.soup_week Sample.soup_table false = Returned gl'
    /\ aggregate_ingredients Sample.soup_week Sample.soup_table true = Returned gl
    /\ GroceryList.items gl
       = filter (fun it => _is_pantry_staple (GroceryListItem.ingredient_name it) = false)
           (GroceryList.items gl').
Proof.
  eexists. 
  destruct (aggregate_exclude_drops_staples Sample.soup_week Sample.soup_table
              (GroceryList.mk
                 (PyList.sort sort_key PyStr.pair_lt
                    (map to_item
                       (PyDict.values
                          (pour false 0.5 (Recipe.ingredients Sample.soup)
                             (MealPlan.slots Sample.soup_week) []))))))
    as (gl & Hgl & Hitems).
  - reflexivity.
  - exists gl. split; [reflexivity|]. split; [exact Hgl|exact Hitems].
Defined.

(** X19: the list has one item per distinct normalized name in use:
    whenever [aggregate_ingredients] returns, [total_items] is the number of
    different normalized names among the uses of ingredients by the plan
    (staples left out when they are excluded). *)
Theorem aggregate_total_items plan (recipes : gmap string Recipe.t) exclude gl :
  aggregate_ingredients plan recipes exclude = Returned gl ->
  GroceryList.total_items gl
  = length (remove_dups (map use_key (plan_uses plan recipes exclude))).
Proof.
  intros H. unfold GroceryList.total_items.
  rewrite <- (length_map item_key (GroceryList.items gl)).
  apply Permutation_length. apply NoDup_Permutation.
  - by eapply aggregate_item_keys_NoDup.
  - apply NoDup_remove_dups.
  - destruct (aggregate_items_from_uses plan recipes exclude gl H) as [Hsound Hcomp].
    intros k. rewrite elem_of_remove_dups. split.
    + intros (it & -> & Hit)%list_elem_of_fmap.
      destruct (Hsound it Hit) as (u & rest & Hf & _).
      assert (Hu : u ∈ filter (fun u => use_key u = item_key it)
                         (plan_uses plan recipes exclude)).
      { rewrite Hf. apply list_elem_of_here. }
      apply list_elem_of_filter in Hu as [<- Hu]. by apply (list_elem_of_fmap_2 use_key).
    + intros (u & -> & Hu)%list_elem_of_fmap.
      destruct (Hcomp u Hu) as (it & Hit & <-). by apply (list_elem_of_fmap_2 item_key).
Qed.

Lemma aggregate_total_items_witness :
  exists gl,
    aggregate_ingredients Sample.soup_week Sample.soup_table false = Returned gl
    /\ GroceryList.total_items gl
       = length (remove_dups (map use_key
                   (plan_uses Sample.soup_week Sample.soup_table false))).
Proof.
  eexists. split; [vm_compute; reflexivity|].
  apply (aggregate_total_items Sample.soup_week Sample.soup_table false).
  vm_compute. reflexivity.
Defined.

End aggregation_more.

(** * Properties of the seasonal calendar *)

Section seasonal.

Lemma month_cases (month : Z) :
  1 <= month <= 12 ->
  month ∈ [1; 2; 3; 4; 5; 6; 7; 8; 9; 10; 11; 12].
Proof.
  intros H. rewrite !elem_of_cons.
  assert (month = 1 \/ month = 2 \/ month = 3 \/ month = 4 \/ month = 5
          \/ month = 6 \/ month = 7 \/ month = 8 \/ month = 9 \/ month = 10
          \/ month = 11 \/ month = 12) as Hm by lia.
  tauto.
Qed.

Lemma get_seasonal_out_of_range (month : Z) :
  ~ (1 <= month <= 12) ->
  Seasonal.get_seasonal_ingredients month
  = Seasonal.Raise
      (Seasonal.ValueError
         ("Month must be between 1 and 12, got " +:+ PyInt.str month)).
Proof.
  intros H. unfold Seasonal.get_seasonal_ingredients.
  destruct ((1 <=? month)%Z && (month <=? 12)%Z) eqn:E; [|done].
  apply andb_true_iff in E as [E1%Z.leb_le E2%Z.leb_le]. lia.
Qed.

Lemma get_seasonal_in_range (month : Z) :
  1 <= month <= 12 ->
  exists seasonal,
    Seasonal.get_seasonal_ingredients month = Seasonal.Ok seasonal
    /\ PyDict.keys seasonal = [Seasonal.LEGUMES; Seasonal.FRUITS; Seasonal.HERBES]
    /\ Forall (fun l => l <> []) (PyDict.values seasonal)
    /\ Forall (Forall (fun n => PyStr.lower n = n)) (PyDict.values seasonal).
Proof.
  intros H%month_cases.
  repeat (apply elem_of_cons in H as [->|H];
          [eexists; split; [vm_compute; reflexivity|];
           split; [reflexivity|]; split; repeat constructor; discriminate|]).
  by apply elem_of_nil in H.
Qed.

Lemma get_seasonal_Ok_range (month : Z) seasonal :
  Seasonal.get_seasonal_ingredients month = Seasonal.Ok seasonal ->
  1 <= month <= 12.
Proof.
  intros H. destruct (decide (1 <= month <= 12)) as [|Hn]; [done|].
  rewrite (get_seasonal_out_of_range _ Hn) in H. discriminate.
Qed.



Lemma any_list_contains_spec (x : string) (lists : list (list string)) :
  Seasonal.any_list_contains x lists = true <-> exists l, l ∈ lists /\ x ∈ l.
Proof.
  induction lists as [|l lists IH]; simpl.
  - split; [done|]. intros (l & Hl & _). by apply elem_of_nil in Hl.
  - unfold Seasonal.list_contains at 1. destruct (bool_decide (x ∈ l)) eqn:E.
    + apply bool_decide_eq_true in E. split; [|done]. intros _.
      exists l. split; [apply list_elem_of_here|done].
    + apply bool_decide_eq_false in E. rewrite IH. split.
      * intros (l' & Hl' & Hx). exists l'. split; [by apply list_elem_of_further|done].
      * intros (l' & Hl' & Hx). apply elem_of_cons in Hl' as [->|Hl']; [done|].
        by exists l'.
Qed.

(** X14: [is_ingredient_in_season] answers true exactly when the month is
    valid and the lower-cased name is listed under some category of that
    month; it raises exactly what [get_seasonal_ingredients] raises for the
    month; and it gives the same answer for a name and for its lower-cased
    form. *)
Theorem is_ingredient_in_season_spec (ingredient : string) (month : Z) :
  (Seasonal.is_ingredient_in_season ingredient month = Seasonal.Ok true
   <-> exists seasonal cat items,
         Seasonal.get_seasonal_ingredients month = Seasonal.Ok seasonal
         /\ (cat, items) ∈ seasonal
         /\ PyStr.lower ingredient ∈ items)
  /\ (forall e, Seasonal.is_ingredient_in_season ingredient month = Seasonal.Raise e
                <-> Seasonal.get_seasonal_ingredients month = Seasonal.Raise e)
  /\ Seasonal.is_ingredient_in_season (PyStr.lower ingredient) month
     = Seasonal.is_ingredient_in_season ingredient month.
Proof.
  unfold Seasonal.is_ingredient_in_season.
  destruct (Seasonal.get_seasonal_ingredients month) as [seasonal|e0] eqn:E.
  - split_and!.
    + split.
      * intros [= H]. apply any_list_contains_spec in H as (l & Hl & Hx).
        apply list_elem_of_fmap in Hl as ([cat items] & -> & Hin).
        by exists seasonal, cat, items.
      * intros (s & cat & items & [= <-] & Hin & Hx). f_equal.
        apply any_list_contains_spec. exists items. split; [|done].
        apply list_elem_of_fmap. by exists (cat, items).
    + intros e. split; discriminate.
    + by rewrite lower_idem.
  - split_and!.
    + split; [discriminate|]. by intros (s & cat & items & [=] & _).
    + intros e. split; intros [= ->]; reflexivity.
    + reflexivity.
Qed.

(** X15: every name the calendar lists for a month is in season in that
    month: looking up a listed name under its month answers true, whatever
    its category. *)
Theorem listed_ingredient_in_season (month : Z) seasonal cat items (name : string) :
  Seasonal.get_seasonal_ingredients month = Seasonal.Ok seasonal ->
  (cat, items) ∈ seasonal ->
  name ∈ items ->
  Seasonal.is_ingredient_in_season name month = Seasonal.Ok true.
Proof.
  intros Hget Hin Hname.
  destruct (get_seasonal_in_range month (get_seasonal_Ok_range _ _ Hget))
    as (s & Hs & _ & _ & Hlower).
  rewrite Hget in Hs. injection Hs as <-.
  assert (Hitems : items ∈ PyDict.values seasonal).
  { apply list_elem_of_fmap. by exists (cat, items). }
  rewrite Forall_forall in Hlower. specialize (Hlower items Hitems).
  rewrite Forall_forall in Hlower. specialize (Hlower name Hname).
  unfold Seasonal.is_ingredient_in_season. rewrite Hget. f_equal.
  apply any_list_contains_spec. exists items. split; [done|]. by rewrite Hlower.
Qed.

Lemma listed_ingredient_in_season_witness :
  exists seasonal items,
    Seasonal.get_seasonal_ingredients 7 = Seasonal.Ok seasonal
    /\ (Seasonal.LEGUMES, items) ∈ seasonal
    /\ "tomate" ∈ items
    /\ Seasonal.is_ingredient_in_season "tomate" 7 = Seasonal.Ok true.
Proof.
  eexists _, _. split; [vm_compute; reflexivity|].
  split; [apply list_elem_of_here|]. split; [apply list_elem_of_here|].
  eapply (listed_ingredient_in_season 7 _ Seasonal.LEGUMES _ "tomate").
  - vm_compute. reflexivity.
  - apply list_elem_of_here.
  - apply list_elem_of_here.
Defined.

End seasonal.

(** * Properties of the rendering of quantities *)

Section format_quantity.












End format_quantity.
